(** * JusBook voice assistant: the dialogue state machine and the booking ledger

    A shallow embedding of [main.py]: the intent classifier, the name and
    date/time extraction helpers, the per-state handlers, the global-intent
    dispatcher [get_response_for_state] and the two routes that drive a
    conversation ([start_session], [send_message]), with the voice, booking
    and catalogue routes.

    Modelling choices.
    - Text is [string]; characters are taken to be ASCII.  [lower], [strip],
      [split], [isalpha], [title] and the regular expression class [\w] are
      the restrictions of Python's Unicode-aware versions to code points
      below 128 (characters from 128 on are left alone, are neither letters
      nor white space).
    - A request body is what [await request.json()] yields: a JSON value,
      or the decoder's exception.  The routes read their fields with
      [data.get], so a body that is not an object, a message that is not a
      string and a session identifier that cannot be hashed raise where the
      code raises.
    - The three module-level dictionaries are association lists in insertion
      order, because the code iterates over [.values()] and picks the first
      match; [dict_set] overwrites in place or appends, as a Python [dict].
    - Objects held in the dictionaries are mutated in place by the code
      ([b.status = ...], [session.state = ...]); here the dictionary entry is
      rewritten.  A session's [selected_service] is a reference to a
      [Service]; services are never mutated after construction, so the
      session carries a copy.
    - [uuid.uuid4()], [datetime.now()], [dateutil.parser.parse] and the
      standard output are external: every turn receives an [Env] with
      their results.  The two [print] calls of the [except] handlers write
      the text of the exception they caught; a [print] can itself raise
      (the output cannot encode the text, or is closed), and that outcome
      comes from the [Env] too.
    - Exceptions that the code can raise ([KeyError] on a dictionary lookup,
      [AttributeError] on an attribute that the object lacks, [TypeError]
      on an unhashable key, the 404 of the routes, what the parser, the
      recogniser or [print] raised) are values of a small error monad.
    - [created_at] stamps are never read and are left out. *)

From Stdlib Require Import String Ascii List Bool Arith ZArith.
From Stdlib Require Import DecimalString.
Import ListNotations.
Open Scope string_scope.
Open Scope nat_scope.

Set Implicit Arguments.

(** ** Python string primitives (ASCII) *)

Module PyStr.

Definition code (c : ascii) : nat := nat_of_ascii c.

Definition is_upper (c : ascii) : bool := (65 <=? code c) && (code c <=? 90).
Definition is_lower (c : ascii) : bool := (97 <=? code c) && (code c <=? 122).
Definition is_digit (c : ascii) : bool := (48 <=? code c) && (code c <=? 57).
Definition is_alpha (c : ascii) : bool := is_upper c || is_lower c.

(** [\w] of the [re] module. *)
Definition is_word (c : ascii) : bool :=
  is_alpha c || is_digit c || (code c =? 95).

(** [str.isspace] on one character: TAB..CR, FS..US and the blank. *)
Definition is_space (c : ascii) : bool :=
  ((9 <=? code c) && (code c <=? 13)) || ((28 <=? code c) && (code c <=? 32)).

Definition to_lower (c : ascii) : ascii :=
  if is_upper c then ascii_of_nat (code c + 32) else c.
Definition to_upper (c : ascii) : ascii :=
  if is_lower c then ascii_of_nat (code c - 32) else c.

(** [s.lower()] *)
Fixpoint lower (s : string) : string :=
  match s with
  | EmptyString => EmptyString
  | String c r => String (to_lower c) (lower r)
  end.

(** [s.lstrip()], [s.rstrip()], [s.strip()] *)
Fixpoint lstrip (s : string) : string :=
  match s with
  | EmptyString => EmptyString
  | String c r => if is_space c then lstrip r else s
  end.

Fixpoint rstrip (s : string) : string :=
  match s with
  | EmptyString => EmptyString
  | String c r =>
      match rstrip r with
      | EmptyString => if is_space c then EmptyString else String c EmptyString
      | r' => String c r'
      end
  end.

Definition strip (s : string) : string := rstrip (lstrip s).

(** [kw in text] on strings: [kw] occurs as a contiguous substring. *)
Fixpoint contains (kw text : string) : bool :=
  prefix kw text ||
  match text with
  | EmptyString => false
  | String _ r => contains kw r
  end.

(** [x in xs] on a list of strings. *)
Definition mem (x : string) (xs : list string) : bool :=
  existsb (String.eqb x) xs.

(** [s.isalpha()]: non-empty and letters only. *)
Fixpoint all_alpha (s : string) : bool :=
  match s with
  | EmptyString => true
  | String c r => is_alpha c && all_alpha r
  end.

Definition isalpha (s : string) : bool :=
  match s with
  | EmptyString => false
  | _ => all_alpha s
  end.

(** [s.split()]: the maximal runs of non-space characters.  [cur] is the
    word read so far. *)
Fixpoint split_aux (cur : string) (s : string) : list string :=
  match s with
  | EmptyString => match cur with EmptyString => [] | _ => [cur] end
  | String c r =>
      if is_space c
      then match cur with
           | EmptyString => split_aux EmptyString r
           | _ => cur :: split_aux EmptyString r
           end
      else split_aux (cur ++ String c EmptyString) r
  end.

Definition split (s : string) : list string := split_aux EmptyString s.

(** [s.title()]: a letter is upper-cased when the character before it is
    not a letter, lower-cased otherwise. *)
Fixpoint title_aux (prev_cased : bool) (s : string) : string :=
  match s with
  | EmptyString => EmptyString
  | String c r =>
      if is_alpha c
      then String (if prev_cased then to_lower c else to_upper c) (title_aux true r)
      else String c (title_aux false r)
  end.

Definition title (s : string) : string := title_aux false s.

(** [sep.join(xs)] *)
Fixpoint join (sep : string) (xs : list string) : string :=
  match xs with
  | [] => EmptyString
  | [x] => x
  | x :: r => x ++ sep ++ join sep r
  end.

(** [s[:n]] *)
Definition take (n : nat) (s : string) : string := substring 0 n s.

(** A string is truthy when it is not empty. *)
Definition truthy (s : string) : bool :=
  match s with EmptyString => false | _ => true end.

(** [str(n)] for an [int]. *)
Definition str_int (z : Z) : string := NilZero.string_of_int (Z.to_int z).

(** The maximal run of [\w] characters at the head of [s]. *)
Fixpoint word_run (s : string) : string :=
  match s with
  | EmptyString => EmptyString
  | String c r => if is_word c then String c (word_run r) else EmptyString
  end.

(** What is left of [s] after the literal [lit], when [s] starts with it. *)
Fixpoint after_prefix (lit s : string) : option string :=
  match lit, s with
  | EmptyString, _ => Some s
  | String a l, String b r => if Ascii.eqb a b then after_prefix l r else None
  | String _ _, EmptyString => None
  end.

(** [re.search(lit + "(\w+)", s)] followed by [.group(1)]: the leftmost
    position where the literal is followed by at least one word character;
    the group is greedy. *)
Fixpoint re_search_word (lit s : string) : option string :=
  let here :=
    match after_prefix lit s with
    | Some rest =>
        match word_run rest with
        | EmptyString => None
        | w => Some w
        end
    | None => None
    end in
  match here with
  | Some w => Some w
  | None =>
      match s with
      | EmptyString => None
      | String _ r => re_search_word lit r
      end
  end.

End PyStr.
Import PyStr.

(** ** Intent classification *)

Inductive Intent :=
| i_greeting | i_booking | i_availability | i_cancel | i_update
| i_show_bookings | i_help | i_confirm | i_deny | i_unknown.

Definition Intent_eqb (a b : Intent) : bool :=
  match a, b with
  | i_greeting, i_greeting | i_booking, i_booking
  | i_availability, i_availability | i_cancel, i_cancel
  | i_update, i_update | i_show_bookings, i_show_bookings
  | i_help, i_help | i_confirm, i_confirm | i_deny, i_deny
  | i_unknown, i_unknown => true
  | _, _ => false
  end.

(** [GOODBYE_KEYWORDS] *)
Definition GOODBYE_KEYWORDS : list string :=
  ["bye"; "goodbye"; "see you"; "exit"; "quit"].

(** [IntentClassifier.intents], in the insertion order of the literal. *)
Definition intents : list (Intent * list string) :=
  [ (i_greeting, ["hi"; "hello"; "hey"; "good morning"; "good afternoon"]);
    (i_booking, ["book"; "appointment"; "schedule"; "reserve"]);
    (i_availability, ["available"; "slots"; "when"; "time"]);
    (i_cancel, ["cancel"; "remove"; "delete"]);
    (i_update, ["change"; "update"; "reschedule"]);
    (i_show_bookings,
      ["show my bookings"; "my bookings"; "list bookings"; "current bookings"]);
    (i_help, ["help"; "assist"; "what can you do"]);
    (i_confirm, ["yes"; "confirm"; "ok"; "sure"; "correct"]);
    (i_deny, ["no"; "cancel"; "wrong"; "incorrect"]) ].

(** [any(keyword in text for keyword in keywords)] *)
Definition any_in (keywords : list string) (text : string) : bool :=
  existsb (fun keyword => contains keyword text) keywords.

(** The [for intent, keywords in self.intents.items()] loop. *)
Fixpoint classify_loop (items : list (Intent * list string)) (text : string)
  : Intent :=
  match items with
  | [] => i_unknown
  | (intent, keywords) :: rest =>
      if any_in keywords text then intent else classify_loop rest text
  end.

(** [IntentClassifier.classify] *)
Definition classify (text : string) : Intent :=
  classify_loop intents (strip (lower text)).

(** ** Name extraction *)

(** The literal parts of the four patterns of [extract_name]; each is
    followed by the group [(\w+)]. *)
Definition name_patterns : list string :=
  ["my name is "; "i'm "; "i am "; "call me "].

Fixpoint first_pattern (patterns : list string) (text : string) : option string :=
  match patterns with
  | [] => None
  | p :: rest =>
      match re_search_word p (lower text) with
      | Some g => Some (title g)
      | None => first_pattern rest text
      end
  end.

(** [extract_name] *)
Definition extract_name (text : string) : option string :=
  let text := strip text in
  match first_pattern name_patterns text with
  | Some n => Some n
  | None =>
      match split text with
      | [w] => if isalpha w then Some (title w) else None
      | [w1; w2] =>
          if isalpha w1 && isalpha w2
          then Some (join " " [title w1; title w2])
          else None
      | _ => None
      end
  end.

(** ** Exceptions *)

(** The exceptions the modelled code can meet; all are subclasses of
    Python's [Exception]. *)
Inductive exn :=
| KeyError (key : string)
| AttributeError
| TypeError
| ParserError (msg : string)
| OverflowError (msg : string)
| UnicodeEncodeError (msg : string)
| JSONDecodeError (msg : string)
| WaitTimeoutError
| UnknownValueError
| RequestError (msg : string)
| HTTPException (status_code : nat) (detail : string).

Inductive res (A : Type) :=
| Ok (a : A)
| Raise (e : exn).
Arguments Ok {A} a.
Arguments Raise {A} e.

Definition bind {A B} (m : res A) (k : A -> res B) : res B :=
  match m with
  | Ok a => k a
  | Raise e => Raise e
  end.

Notation "x <- m ;; k" := (bind m (fun x => k))
  (at level 61, m at next level, right associativity).
Notation "' p <- m ;; k" := (bind m (fun p => k))
  (at level 61, p pattern, m at next level, right associativity).

(** [try: body  except Exception as e: handler(e)] *)
Definition try_except {A} (body : res A) (handler : exn -> res A) : res A :=
  match body with
  | Ok a => Ok a
  | Raise e => handler e
  end.

(** ** Python dictionaries in insertion order *)

Section Dict.
Variable V : Type.

Definition dict := list (string * V).

(** [d[k]] *)
Fixpoint dict_get (k : string) (d : dict) : res V :=
  match d with
  | [] => Raise (KeyError k)
  | (k', v) :: r => if String.eqb k k' then Ok v else dict_get k r
  end.

(** [k in d] *)
Fixpoint dict_has (k : string) (d : dict) : bool :=
  match d with
  | [] => false
  | (k', _) :: r => String.eqb k k' || dict_has k r
  end.

(** [d[k] = v]: an existing key keeps its place. *)
Fixpoint dict_set (k : string) (v : V) (d : dict) : dict :=
  match d with
  | [] => [(k, v)]
  | (k', v') :: r =>
      if String.eqb k k' then (k', v) :: r else (k', v') :: dict_set k v r
  end.

(** [d.values()] *)
Definition values (d : dict) : list V := map snd d.
End Dict.

(** ** Data model *)

Inductive State :=
| st_greeting | st_name | st_service | st_datetime
| st_confirmation | st_completed | st_ended.

Inductive Status := confirmed | cancelled.

Definition Status_eqb (a b : Status) : bool :=
  match a, b with
  | confirmed, confirmed | cancelled, cancelled => true
  | _, _ => false
  end.

Module Service.
(** [price] is a Python float that the dialogue only prints: the record
    holds its [str()] rendering (["25.0"]). *)
Record t := mk
  { id : string;
    name : string;
    duration : Z;
    price : string;
    available_slots : list string }.
End Service.

Module Booking.
(** [user_name], [date] and [time] are copied from the session, where
    they are [None] until captured. *)
Record t := mk
  { id : string;
    user_name : option string;
    service_id : string;
    date : option string;
    time : option string;
    status : Status }.

Definition set_status (st : Status) (b : t) : t :=
  mk (id b) (user_name b) (service_id b) (date b) (time b) st.
End Booking.

Inductive Speaker := user | assistant.

Module ConversationSession.
Record t := mk
  { id : string;
    state : State;
    user_name : option string;
    selected_service : option Service.t;
    selected_date : option string;
    selected_time : option string;
    conversation_history : list (Speaker * string) }.

(** [ConversationSession()] with the identifier drawn for it. *)
Definition new (uuid : string) : t :=
  mk uuid st_greeting None None None None [].

Definition set_state (st : State) (s : t) : t :=
  mk (id s) st (user_name s) (selected_service s) (selected_date s)
     (selected_time s) (conversation_history s).
Definition set_user_name (n : option string) (s : t) : t :=
  mk (id s) (state s) n (selected_service s) (selected_date s)
     (selected_time s) (conversation_history s).
Definition set_selected_service (v : option Service.t) (s : t) : t :=
  mk (id s) (state s) (user_name s) v (selected_date s)
     (selected_time s) (conversation_history s).
Definition set_selected_date (d : option string) (s : t) : t :=
  mk (id s) (state s) (user_name s) (selected_service s) d
     (selected_time s) (conversation_history s).
Definition set_selected_time (d : option string) (s : t) : t :=
  mk (id s) (state s) (user_name s) (selected_service s) (selected_date s)
     d (conversation_history s).
Definition append_history (e : Speaker * string) (s : t) : t :=
  mk (id s) (state s) (user_name s) (selected_service s) (selected_date s)
     (selected_time s) (conversation_history s ++ [e])%list.
End ConversationSession.

Module CS := ConversationSession.

(** The three module-level stores. *)
Record World := mkWorld
  { services_db : dict Service.t;
    bookings_db : dict Booking.t;
    sessions_db : dict CS.t }.

(** What one turn obtains from outside the program.
    - [uuid4]: the value of [str(uuid.uuid4())] drawn in this turn;
    - [parse text]: the two [strftime] renderings (date, time label) of
      [parser.parse(text, fuzzy=True, default=today)], or the exception the
      parser raised;
    - [tomorrow]: [(today + timedelta(days=1)).strftime("%Y-%m-%d")];
    - [print_exn prefix e]: the outcome of [print(f"{prefix}{e}")].  The
      text of [e] is the exception's own (the parser's quotes the input);
      the call returns, or raises what the standard output raised on that
      text. *)
Record Env := mkEnv
  { uuid4 : string;
    parse : string -> res (string * string);
    tomorrow : string;
    print_exn : string -> exn -> res unit }.

(** Equality of an optional attribute with a value, as Python's [==]. *)
Definition opt_eqb (a b : option string) : bool :=
  match a, b with
  | Some x, Some y => String.eqb x y
  | None, None => true
  | _, _ => false
  end.

(** [str(x)] inside an f-string for an optional attribute. *)
Definition show_opt (o : option string) : string :=
  match o with Some s => s | None => "None" end.

Definition nl : string := String (ascii_of_nat 10) EmptyString.

(** ** Utility functions *)

(** [extract_datetime]: the parser's two renderings; when the parser
    raises, the handler prints the error and then returns tomorrow at
    nine. *)
Definition extract_datetime (env : Env) (text : string) : res (string * string) :=
  let text := strip text in
  try_except (parse env text)
    (fun e =>
       bind (print_exn env "Date parsing error: " e)
         (fun _ => Ok (tomorrow env, "09:00 AM"))).

Definition is_confirmed (b : Booking.t) : bool :=
  Status_eqb (Booking.status b) confirmed.

(** The loop of [is_slot_available] over [bookings_db.values()]. *)
Fixpoint slot_free (bookings : list Booking.t) (service_id date time : string)
  : bool :=
  match bookings with
  | [] => true
  | booking :: rest =>
      if String.eqb (Booking.service_id booking) service_id
         && opt_eqb (Booking.date booking) (Some date)
         && opt_eqb (Booking.time booking) (Some time)
         && is_confirmed booking
      then false
      else slot_free rest service_id date time
  end.

(** [is_slot_available] *)
Definition is_slot_available (bookings_db : dict Booking.t)
    (service_id date time : string) : bool :=
  slot_free (values bookings_db) service_id date time.

(** ** State handlers *)

Definition msg_welcome : string :=
  "Welcome to JusBook! I'm your AI assistant. What's your name?".
Definition msg_name_again : string :=
  "I didn't catch your name. Could you tell me again?".
Definition msg_datetime_again : string :=
  "I couldn't understand the date and time. Please try something like 'tomorrow at 2 PM'.".
Definition msg_yes_or_no : string :=
  "Please say 'yes' to confirm or 'no' to start over.".
Definition msg_start_over : string :=
  "No problem! Let's start over. Which service would you like?".
Definition msg_goodbye : string :=
  "Goodbye! Thank you for using JusBook. Have a great day!".
Definition msg_no_bookings : string := "You have no active bookings.".
Definition msg_cancelled : string :=
  "Your bookings have been cancelled successfully.".
Definition msg_nothing_to_cancel : string :=
  "You have no active bookings to cancel.".
Definition msg_nothing_to_update : string :=
  "You have no bookings to update. Let's create a new booking.".
Definition msg_session_ended : string :=
  "The session has ended. Please start a new session to continue.".
Definition msg_not_understood : string :=
  "I'm sorry, I didn't understand. Could you try again?".

(** [handle_greeting_state] *)
Definition handle_greeting_state (session : CS.t) : CS.t * string :=
  (CS.set_state st_name session, msg_welcome).

Definition service_line (service : Service.t) : string :=
  "- " ++ Service.name service ++ " ($" ++ Service.price service ++ ", "
  ++ str_int (Service.duration service) ++ " min)".

(** [handle_name_state] *)
Definition handle_name_state (services_db : dict Service.t) (session : CS.t)
    (user_input : string) : CS.t * string :=
  match extract_name user_input with
  | Some name =>
      if truthy name then
        let session := CS.set_state st_service (CS.set_user_name (Some name) session) in
        let services_list := join nl (map service_line (values services_db)) in
        (session,
         "Nice to meet you, " ++ name ++ "! Here are our available services:" ++ nl
         ++ services_list ++ nl ++ nl ++ "Which service would you like to book?")
      else (session, msg_name_again)
  | None => (session, msg_name_again)
  end.

(** The search loop of [handle_service_state]. *)
Fixpoint find_service (services : list Service.t) (user_input : string)
  : option Service.t :=
  match services with
  | [] => None
  | service :: rest =>
      if contains (lower (Service.name service)) (lower user_input)
      then Some service
      else find_service rest user_input
  end.

(** [handle_service_state] *)
Definition handle_service_state (services_db : dict Service.t) (session : CS.t)
    (user_input : string) : CS.t * string :=
  match find_service (values services_db) user_input with
  | Some selected_service =>
      let session :=
        CS.set_state st_datetime
          (CS.set_selected_service (Some selected_service) session) in
      let slots := join ", " (Service.available_slots selected_service) in
      (session,
       "Great choice! " ++ Service.name selected_service ++ " costs $"
       ++ Service.price selected_service ++ " and takes "
       ++ str_int (Service.duration selected_service) ++ " minutes." ++ nl
       ++ "Available slots: " ++ slots ++ nl
       ++ "What date and time would you prefer? (e.g., 'tomorrow at 2 PM')")
  | None =>
      let services_list := join ", " (map Service.name (values services_db)) in
      (session,
       "I didn't recognize that service. Available services: " ++ services_list
       ++ ". Which one would you like?")
  end.

Definition msg_slot_taken (svc : Service.t) : string :=
  "Sorry, that slot is not available. Please choose from: "
  ++ join ", " (Service.available_slots svc).

Definition msg_summary (session : CS.t) (svc : Service.t) (date time_slot : string)
  : string :=
  "Perfect! Here's your booking:" ++ nl ++ nl
  ++ "Name: " ++ show_opt (CS.user_name session) ++ nl
  ++ "Service: " ++ Service.name svc ++ nl
  ++ "Date: " ++ date ++ nl
  ++ "Time: " ++ time_slot ++ nl
  ++ "Duration: " ++ str_int (Service.duration svc) ++ " minutes" ++ nl
  ++ "Price: $" ++ Service.price svc ++ nl ++ nl
  ++ "Shall I confirm this booking?".

(** [handle_datetime_state].  [session.selected_service.available_slots]
    is only evaluated once both strings are truthy. *)
Definition handle_datetime_state (env : Env) (bookings_db : dict Booking.t)
    (session : CS.t) (user_input : string) : res (CS.t * string) :=
  '(date, time_slot) <- extract_datetime env user_input ;;
  if truthy date && truthy time_slot then
    match CS.selected_service session with
    | None => Raise AttributeError
    | Some svc =>
        if mem time_slot (Service.available_slots svc) then
          if is_slot_available bookings_db (Service.id svc) date time_slot then
            let session' :=
              CS.set_state st_confirmation
                (CS.set_selected_time (Some time_slot)
                   (CS.set_selected_date (Some date) session)) in
            Ok (session', msg_summary session svc date time_slot)
          else Ok (session, msg_slot_taken svc)
        else Ok (session, msg_datetime_again)
    end
  else Ok (session, msg_datetime_again).

Definition msg_confirmed (booking : Booking.t) (session : CS.t) (svc : Service.t)
  : string :=
  "Excellent! Your booking is confirmed!" ++ nl
  ++ "Booking ID: " ++ take 8 (Booking.id booking) ++ nl
  ++ "Service: " ++ Service.name svc ++ nl
  ++ "Date: " ++ show_opt (CS.selected_date session) ++ nl
  ++ "Time: " ++ show_opt (CS.selected_time session) ++ nl
  ++ "Thank you for using JusBook!".

(** [handle_confirmation_state] *)
Definition handle_confirmation_state (env : Env) (bookings_db : dict Booking.t)
    (session : CS.t) (intent : Intent)
  : res (dict Booking.t * CS.t * string) :=
  match intent with
  | i_confirm =>
      match CS.selected_service session with
      | None => Raise AttributeError
      | Some svc =>
          let booking :=
            Booking.mk (uuid4 env) (CS.user_name session) (Service.id svc)
              (CS.selected_date session) (CS.selected_time session) confirmed in
          Ok (dict_set (Booking.id booking) booking bookings_db,
              CS.set_state st_completed session,
              msg_confirmed booking session svc)
      end
  | i_deny => Ok (bookings_db, CS.set_state st_service session, msg_start_over)
  | _ => Ok (bookings_db, session, msg_yes_or_no)
  end.

(** ** Global intents and dispatch *)

(** [b.user_name == session.user_name and b.status == "confirmed"] *)
Definition owned_confirmed (session : CS.t) (b : Booking.t) : bool :=
  opt_eqb (Booking.user_name b) (CS.user_name session) && is_confirmed b.

(** The lines of the show-bookings reply; [services_db[b.service_id]] may
    raise. *)
Fixpoint booking_lines (services_db : dict Service.t) (bs : list Booking.t)
  : res string :=
  match bs with
  | [] => Ok EmptyString
  | b :: rest =>
      svc <- dict_get (Booking.service_id b) services_db ;;
      tail <- booking_lines services_db rest ;;
      Ok ("- " ++ Service.name svc ++ " on " ++ show_opt (Booking.date b)
          ++ " at " ++ show_opt (Booking.time b) ++ nl ++ tail)
  end.

(** The cancel loop: the dictionary after the in-place updates, and the
    list [cancelled_bookings]. *)
Fixpoint cancel_loop (session : CS.t) (d : dict Booking.t)
  : dict Booking.t * list Booking.t :=
  match d with
  | [] => ([], [])
  | (k, b) :: rest =>
      let '(rest', cancelled_bookings) := cancel_loop session rest in
      if owned_confirmed session b
      then let b' := Booking.set_status cancelled b in
           ((k, b') :: rest', b' :: cancelled_bookings)
      else ((k, b) :: rest', cancelled_bookings)
  end.

(** The update loop: stops at the first confirmed booking of the caller,
    looks its service up, cancels it. *)
Fixpoint update_loop (services_db : dict Service.t) (session : CS.t)
    (d : dict Booking.t) : res (option (dict Booking.t * Service.t)) :=
  match d with
  | [] => Ok None
  | (k, b) :: rest =>
      if owned_confirmed session b then
        svc <- dict_get (Booking.service_id b) services_db ;;
        Ok (Some ((k, Booking.set_status cancelled b) :: rest, svc))
      else
        o <- update_loop services_db session rest ;;
        Ok (match o with
            | Some (rest', svc) => Some ((k, b) :: rest', svc)
            | None => None
            end)
  end.

Definition msg_rebook (svc : Service.t) : string :=
  "Your previous booking is cancelled. Let's book a new slot for "
  ++ Service.name svc ++ ". Which date and time do you prefer?".

(** A handler that leaves the bookings store alone. *)
Definition keep (bookings_db : dict Booking.t) (r : CS.t * string)
  : dict Booking.t * CS.t * string :=
  (bookings_db, fst r, snd r).

(** [get_response_for_state]: the bookings store and the session after the
    turn, and the reply. *)
Definition get_response_for_state (env : Env) (services_db : dict Service.t)
    (bookings_db : dict Booking.t) (session : CS.t) (user_input : string)
  : res (dict Booking.t * CS.t * string) :=
  if any_in GOODBYE_KEYWORDS (lower user_input) then
    Ok (bookings_db, CS.set_state st_ended session, msg_goodbye)
  else
    let intent := classify user_input in
    match intent with
    | i_show_bookings =>
        let user_bookings := filter (owned_confirmed session) (values bookings_db) in
        match user_bookings with
        | [] => Ok (bookings_db, session, msg_no_bookings)
        | _ =>
            lines <- booking_lines services_db user_bookings ;;
            Ok (bookings_db, session,
                "Here are your current bookings:" ++ nl ++ lines)
        end
    | i_cancel =>
        let '(bookings_db', cancelled_bookings) := cancel_loop session bookings_db in
        match cancelled_bookings with
        | [] => Ok (bookings_db', session, msg_nothing_to_cancel)
        | _ => Ok (bookings_db', CS.set_state st_greeting session, msg_cancelled)
        end
    | i_update =>
        o <- update_loop services_db session bookings_db ;;
        match o with
        | Some (bookings_db', svc) =>
            Ok (bookings_db',
                CS.set_state st_datetime (CS.set_selected_service (Some svc) session),
                msg_rebook svc)
        | None => Ok (bookings_db, session, msg_nothing_to_update)
        end
    | _ =>
        match CS.state session with
        | st_greeting => Ok (keep bookings_db (handle_greeting_state session))
        | st_name =>
            Ok (keep bookings_db (handle_name_state services_db session user_input))
        | st_service =>
            Ok (keep bookings_db (handle_service_state services_db session user_input))
        | st_datetime =>
            r <- handle_datetime_state env bookings_db session user_input ;;
            Ok (keep bookings_db r)
        | st_confirmation =>
            handle_confirmation_state env bookings_db session intent
        | st_ended => Ok (bookings_db, session, msg_session_ended)
        | st_completed => Ok (bookings_db, session, msg_not_understood)
        end
    end.

(** ** Routes *)

(** [initialize_sample_data], with the three identifiers drawn for the
    services. *)
Definition haircut (u : string) : Service.t :=
  Service.mk u "Haircut" 30 "25.0"
    ["09:00 AM"; "10:00 AM"; "11:00 AM"; "02:00 PM"; "03:00 PM"; "04:00 PM"].
Definition consultation (u : string) : Service.t :=
  Service.mk u "Consultation" 60 "50.0"
    ["09:00 AM"; "11:00 AM"; "02:00 PM"; "04:00 PM"].
Definition massage (u : string) : Service.t :=
  Service.mk u "Massage" 90 "80.0" ["09:00 AM"; "11:00 AM"; "02:00 PM"].

Definition initialize_sample_data (u1 u2 u3 : string) : dict Service.t :=
  dict_set u3 (massage u3) (dict_set u2 (consultation u2) (dict_set u1 (haircut u1) [])).

(** The stores when the module has been loaded. *)
Definition initial_world (u1 u2 u3 : string) : World :=
  mkWorld (initialize_sample_data u1 u2 u3) [] [].

(** What a route answers: the reply text and the session's state. *)
Definition Response : Type := string * State.

(** [POST /api/start-session] *)
Definition start_session (env : Env) (w : World) : World * (string * Response) :=
  let session := CS.new (uuid4 env) in
  (mkWorld (services_db w) (bookings_db w)
     (dict_set (CS.id session) session (sessions_db w)),
   (CS.id session, ("Welcome to JusBook! Say Hi", CS.state session))).

(** *** Request bodies *)

(** A parsed JSON value.  A float is carried as its truth value (whether
    it differs from zero), the only thing the routes ask of one. *)
#[local] Unset Elimination Schemes.
Inductive json :=
| JNull
| JBool (b : bool)
| JInt (z : Z)
| JFloat (nonzero : bool)
| JStr (s : string)
| JArr (items : list json)
| JObj (fields : list (string * json)).
#[local] Set Elimination Schemes.

(** [bool(v)] *)
Definition json_truthy (v : json) : bool :=
  match v with
  | JNull => false
  | JBool b => b
  | JInt z => negb (Z.eqb z 0)
  | JFloat nonzero => nonzero
  | JStr s => truthy s
  | JArr items => match items with [] => false | _ => true end
  | JObj fields => match fields with [] => false | _ => true end
  end.

(** The value of a key in a decoded object: of two members with the same
    name the decoder keeps the later one. *)
Fixpoint obj_get (key : string) (fields : list (string * json)) : option json :=
  match fields with
  | [] => None
  | (k, v) :: rest =>
      match obj_get key rest with
      | Some v' => Some v'
      | None => if String.eqb key k then Some v else None
      end
  end.

(** [data.get(key, default)]: only an object has the method. *)
Definition json_get (data : json) (key : string) (default : json) : res json :=
  match data with
  | JObj fields =>
      Ok (match obj_get key fields with Some v => v | None => default end)
  | _ => Raise AttributeError
  end.

(** [v.strip()]: only a string has the method. *)
Definition json_strip (v : json) : res string :=
  match v with
  | JStr s => Ok (strip s)
  | _ => Raise AttributeError
  end.

(** The test [not session_id or session_id not in sessions_db] with its
    404, followed by [sessions_db[session_id]].  The membership test hashes
    the identifier: a non-empty list or object raises; a number or a
    boolean is hashable and equals no key. *)
Definition find_session (session_id : json) (w : World) : res (string * CS.t) :=
  if negb (json_truthy session_id) then
    Raise (HTTPException 404 "Session not found")
  else
    match session_id with
    | JStr sid =>
        if negb (dict_has sid (sessions_db w)) then
          Raise (HTTPException 404 "Session not found")
        else
          session <- dict_get sid (sessions_db w) ;;
          Ok (sid, session)
    | JArr _ | JObj _ => Raise TypeError
    | _ => Raise (HTTPException 404 "Session not found")
    end.

(** The lines that both conversation routes share: the user's line is
    appended to the history, the dispatcher runs, the reply is appended.
    When the dispatcher raises, the user's line has already been
    appended. *)
Definition serve_turn (env : Env) (session_id : string) (session : CS.t)
    (user_text : string) (w : World) : World * res Response :=
  let session := CS.append_history (user, user_text) session in
  match get_response_for_state env (services_db w) (bookings_db w)
          session user_text with
  | Raise e =>
      (mkWorld (services_db w) (bookings_db w)
         (dict_set session_id session (sessions_db w)),
       Raise e)
  | Ok (bookings_db', session', response) =>
      let session' := CS.append_history (assistant, response) session' in
      (mkWorld (services_db w) bookings_db'
         (dict_set session_id session' (sessions_db w)),
       Ok (response, CS.state session'))
  end.

(** [POST /api/send-message].  [body] is the outcome of
    [await request.json()].  The message is read and trimmed before the
    session is looked up. *)
Definition send_message (env : Env) (body : res json) (w : World)
  : World * res Response :=
  match (data <- body ;;
         session_id <- json_get data "session_id" JNull ;;
         message_value <- json_get data "message" (JStr EmptyString) ;;
         message <- json_strip message_value ;;
         found <- find_session session_id w ;;
         Ok (found, message)) with
  | Raise e => (w, Raise e)
  | Ok (sid, session, message) => serve_turn env sid session message w
  end.

(** The body of a well-typed request of a client: both fields are
    strings. *)
Definition text_message (session_id message : string) : res json :=
  Ok (JObj [("session_id", JStr session_id); ("message", JStr message)]).

(** ** Sequences of calls *)

Inductive Call :=
| StartSession
| SendMessage (body : res json).

Definition step (w : World) (c : Env * Call) : World :=
  match c with
  | (env, StartSession) => fst (start_session env w)
  | (env, SendMessage body) => fst (send_message env body w)
  end.

Definition run (w : World) (calls : list (Env * Call)) : World :=
  fold_left step calls w.

(** The state of a session of the world, when it exists. *)
Definition state_of (w : World) (session_id : string) : option State :=
  match dict_get session_id (sessions_db w) with
  | Ok s => Some (CS.state s)
  | Raise _ => None
  end.

(** ** The intent table as a priority list *)

(** The order in which the classifier is said to test the intents. *)
Definition priority : list Intent :=
  [i_greeting; i_booking; i_availability; i_cancel; i_update;
   i_show_bookings; i_help; i_confirm; i_deny].

(** The keyword list of an intent, read off [intents]. *)
Fixpoint keywords_in (items : list (Intent * list string)) (i : Intent)
  : list string :=
  match items with
  | [] => []
  | (j, kws) :: rest => if Intent_eqb i j then kws else keywords_in rest i
  end.

Definition keywords_of (i : Intent) : list string := keywords_in intents i.

(** [i] has a keyword that occurs in the normalised text [t]. *)
Definition matches (i : Intent) (t : string) : bool := any_in (keywords_of i) t.

(** "The first intent of the priority order with a substring match, else
    unknown", as a relation between the normalised text and the label. *)
Definition first_match (t : string) (i : Intent) : Prop :=
  (exists before after,
      priority = (before ++ i :: after)%list
      /\ matches i t = true
      /\ Forall (fun j => matches j t = false) before)
  \/ (i = i_unknown /\ Forall (fun j => matches j t = false) priority).

(** ** Slot exclusivity *)

Definition same_slot (b1 b2 : Booking.t) : Prop :=
  Booking.service_id b1 = Booking.service_id b2
  /\ Booking.date b1 = Booking.date b2
  /\ Booking.time b1 = Booking.time b2.

(** Invariant I1 on a bookings store: two different entries that are both
    confirmed never agree on (service, date, time). *)
Definition slot_exclusive (d : dict Booking.t) : Prop :=
  forall i j b1 b2,
    i <> j ->
    nth_error (values d) i = Some b1 ->
    nth_error (values d) j = Some b2 ->
    Booking.status b1 = confirmed ->
    Booking.status b2 = confirmed ->
    ~ same_slot b1 b2.

(** ** Vocabulary for the statements *)

(** The goodbye test at the head of [get_response_for_state]. *)
Definition says_goodbye (user_input : string) : bool :=
  any_in GOODBYE_KEYWORDS (lower user_input).

(** The intents that [get_response_for_state] serves before it looks at
    the session's state. *)
Definition is_global (i : Intent) : bool :=
  match i with
  | i_show_bookings | i_cancel | i_update => true
  | _ => false
  end.

Definition terminal (st : State) : bool :=
  match st with
  | st_completed | st_ended => true
  | _ => false
  end.

(** The session after the date/time handler accepted a slot. *)
Definition with_slot (date time_slot : string) (session : CS.t) : CS.t :=
  CS.set_state st_confirmation
    (CS.set_selected_time (Some time_slot)
       (CS.set_selected_date (Some date) session)).

(** The bookings store in which every confirmed booking of the session's
    user has been cancelled and nothing else has changed. *)
Definition cancel_for (session : CS.t) (d : dict Booking.t) : dict Booking.t :=
  map (fun kb => (fst kb,
                  if owned_confirmed session (snd kb)
                  then Booking.set_status cancelled (snd kb)
                  else snd kb)) d.

(** The confirmed bookings of the session's user. *)
Definition mine (session : CS.t) (d : dict Booking.t) : list Booking.t :=
  filter (owned_confirmed session) (values d).

(** The states that lie after the capture of the name in the linear flow. *)
Definition past_name (st : State) : bool :=
  match st with
  | st_service | st_datetime | st_confirmation | st_completed => true
  | _ => false
  end.

Definition named (b : Booking.t) : Prop := Booking.user_name b <> None.

Definition name_captured (s : CS.t) : Prop :=
  past_name (CS.state s) = true -> CS.user_name s <> None.

(** The fixed reply of a terminal state to a message that is not served
    as a global intent. *)
Definition msg_terminal (st : State) : string :=
  match st with
  | st_ended => msg_session_ended
  | _ => msg_not_understood
  end.

(** Every booking and every session past the name state has a user name. *)
Definition names_ok (w : World) : Prop :=
  Forall named (values (bookings_db w))
  /\ Forall name_captured (values (sessions_db w)).

(** ** Concrete conversations *)

Module Scenario.
(** A turn's environment on 2026-11-03: the identifier that would be
    drawn, a parser that finds nine o'clock (the fuzzy parser skips the
    other words and keeps the clock's day) and raises on a text without a
    time, and the day after the clock's. *)
Definition env (u : string) : Env :=
  mkEnv u
    (fun t => if contains "9 am" (lower t)
              then Ok ("2026-11-03", "09:00 AM")
              else Raise (ParserError ("String does not contain a date: " ++ t)))
    "2026-11-04"
    (fun _ _ => Ok tt).

(** The three bytes that stand for the lone surrogate U+D800: a JSON
    string can carry it, the UTF-8 encoder of the standard output refuses
    it. *)
Definition surrogate : string :=
  String (ascii_of_nat 237)
    (String (ascii_of_nat 160) (String (ascii_of_nat 128) EmptyString)).

(** The same turn with that standard output: printing a parser error
    whose text quotes a surrogate raises. *)
Definition env_utf8_stdout (u : string) : Env :=
  mkEnv u (parse (env u)) (tomorrow (env u))
    (fun prefix e =>
       match e with
       | ParserError msg =>
           if contains surrogate msg
           then Raise (UnicodeEncodeError "surrogates not allowed")
           else Ok tt
       | _ => Ok tt
       end).

Definition w0 : World := initial_world "svc-h" "svc-c" "svc-m".

(** One caller walks from the greeting to the confirmation prompt. *)
Definition to_confirmation (sid who : string) : list (Env * Call) :=
  [ (env sid, StartSession);
    (env "-", SendMessage (text_message sid "Hi"));
    (env "-", SendMessage (text_message sid who));
    (env "-", SendMessage (text_message sid "Haircut"));
    (env "-", SendMessage (text_message sid "tomorrow at 9 AM")) ].

(** Alice books the nine o'clock haircut. *)
Definition alice_books : list (Env * Call) :=
  (to_confirmation "s1" "my name is Alice"
     ++ [ (env "b1", SendMessage (text_message "s1" "yes")) ])%list.

(** Alice and Bob both reach the confirmation prompt for the same slot;
    then Alice says yes. *)
Definition both_asked_alice_confirmed : list (Env * Call) :=
  (to_confirmation "s1" "my name is Alice"
     ++ to_confirmation "s2" "Bob"
     ++ [ (env "b1", SendMessage (text_message "s1" "yes")) ])%list.

(** ... and then Bob says yes too. *)
Definition both_confirmed : list (Env * Call) :=
  (both_asked_alice_confirmed ++ [ (env "b2", SendMessage (text_message "s2" "yes")) ])%list.

(** A caller has chosen the haircut and is asked for a date and time. *)
Definition to_datetime : list (Env * Call) :=
  [ (env "s1", StartSession);
    (env "-", SendMessage (text_message "s1" "Hi"));
    (env "-", SendMessage (text_message "s1" "Alice"));
    (env "-", SendMessage (text_message "s1" "Haircut")) ].
End Scenario.

(** ** The other routes *)

(** [DELETE /api/bookings/{booking_id}] *)
Definition cancel_booking (booking_id : string) (w : World) : World * res string :=
  if negb (dict_has booking_id (bookings_db w)) then
    (w, Raise (HTTPException 404 "Booking not found"))
  else
    match dict_get booking_id (bookings_db w) with
    | Raise e => (w, Raise e)
    | Ok b =>
        (mkWorld (services_db w)
           (dict_set booking_id (Booking.set_status cancelled b) (bookings_db w))
           (sessions_db w),
         Ok "Booking cancelled successfully")
    end.


(** One row of [GET /api/bookings]. *)
Record BookingRow := mkRow
  { row_id : string;
    row_user_name : option string;
    row_service_name : string;
    row_date : option string;
    row_time : option string;
    row_status : Status }.

(** [GET /api/bookings]: the comprehension over [bookings_db.values()];
    [services_db[b.service_id]] may raise. *)
Fixpoint booking_rows (services_db : dict Service.t) (bs : list Booking.t)
  : res (list BookingRow) :=
  match bs with
  | [] => Ok []
  | b :: rest =>
      svc <- dict_get (Booking.service_id b) services_db ;;
      rows <- booking_rows services_db rest ;;
      Ok (mkRow (Booking.id b) (Booking.user_name b) (Service.name svc)
            (Booking.date b) (Booking.time b) (Booking.status b) :: rows)
  end.

Definition get_bookings (w : World) : res (list BookingRow) :=
  booking_rows (services_db w) (values (bookings_db w)).

(** [listen_for_speech].  [recognized] is the outcome of the [try] block
    up to the recogniser's answer.  A time-out and an unintelligible
    recording give [None] silently; any other exception is printed first. *)
Definition listen_for_speech (env : Env) (recognized : res string)
  : res (option string) :=
  match recognized with
  | Ok text => Ok (Some (lower text))
  | Raise WaitTimeoutError | Raise UnknownValueError => Ok None
  | Raise e =>
      bind (print_exn env "Speech recognition error: " e) (fun _ => Ok None)
  end.

(** The three answers of [POST /api/voice-input]. *)
Inductive VoiceResponse :=
| voice_ended (response : string) (state : State)
| voice_heard (transcribed_text response : string) (state : State)
| voice_error (error response : string).

Definition msg_voice_ended : string :=
  "The session has ended. Please start a new session.".

Definition voice_not_heard : VoiceResponse :=
  voice_error "Could not understand speech."
    "I couldn't hear you clearly. Please try again.".

(** [POST /api/voice-input] *)
Definition process_voice_input (env : Env) (recognized : res string)
    (body : res json) (w : World) : World * res VoiceResponse :=
  match (data <- body ;;
         session_id <- json_get data "session_id" JNull ;;
         find_session session_id w) with
  | Raise e => (w, Raise e)
  | Ok (sid, session) =>
      match CS.state session with
      | st_ended => (w, Ok (voice_ended msg_voice_ended (CS.state session)))
      | _ =>
          match listen_for_speech env recognized with
          | Raise e => (w, Raise e)
          | Ok (Some speech_text) =>
              if truthy speech_text then
                match serve_turn env sid session speech_text w with
                | (w', Ok (response, state)) =>
                    (w', Ok (voice_heard speech_text response state))
                | (w', Raise e) => (w', Raise e)
                end
              else (w, Ok voice_not_heard)
          | Ok None => (w, Ok voice_not_heard)
          end
      end
  end.

(** The body of a voice request of a client. *)
Definition voice_request (session_id : string) : res json :=
  Ok (JObj [("session_id", JStr session_id)]).

(** ** Vocabulary for the further properties *)

(** The state changes one turn can make: a goodbye ends the session, a
    cancel returns to the greeting, an update jumps to the date and time
    question, and otherwise the state stays or takes one step of the
    linear flow (with the way back from the confirmation to the service
    question). *)
Definition edge (a b : State) : bool :=
  match a, b with
  | _, st_ended | _, st_greeting | _, st_datetime => true
  | st_greeting, st_name => true
  | st_name, st_name | st_name, st_service => true
  | st_service, st_service => true
  | st_confirmation, st_service => true
  | st_confirmation, st_confirmation | st_datetime, st_confirmation => true
  | st_confirmation, st_completed | st_completed, st_completed => true
  | _, _ => false
  end.

(** A booking occupies the slot (service, date, time). *)
Definition occupies (service_id date time : string) (b : Booking.t) : Prop :=
  Booking.service_id b = service_id
  /\ Booking.date b = Some date
  /\ Booking.time b = Some time
  /\ Booking.status b = confirmed.

(** What one successful call of [get_response_for_state] does to the
    bookings store and to the session, branch by branch. *)
Inductive Turn (env : Env) (services_db : dict Service.t)
    (bookings_db : dict Booking.t) (session : CS.t) (user_input : string)
  : dict Booking.t -> CS.t -> Prop :=
| turn_stay :
    Turn env services_db bookings_db session user_input bookings_db session
| turn_goodbye :
    says_goodbye user_input = true ->
    Turn env services_db bookings_db session user_input
      bookings_db (CS.set_state st_ended session)
| turn_cancel :
    says_goodbye user_input = false ->
    classify user_input = i_cancel ->
    mine session bookings_db <> [] ->
    Turn env services_db bookings_db session user_input
      (cancel_for session bookings_db) (CS.set_state st_greeting session)
| turn_update (svc : Service.t) (bookings_db' : dict Booking.t) :
    says_goodbye user_input = false ->
    classify user_input = i_update ->
    update_loop services_db session bookings_db = Ok (Some (bookings_db', svc)) ->
    Turn env services_db bookings_db session user_input
      bookings_db'
      (CS.set_state st_datetime (CS.set_selected_service (Some svc) session))
| turn_greeting :
    CS.state session = st_greeting ->
    Turn env services_db bookings_db session user_input
      bookings_db (CS.set_state st_name session)
| turn_name (n : string) :
    CS.state session = st_name ->
    extract_name user_input = Some n ->
    Turn env services_db bookings_db session user_input
      bookings_db (CS.set_state st_service (CS.set_user_name (Some n) session))
| turn_service (svc : Service.t) :
    CS.state session = st_service ->
    find_service (values services_db) user_input = Some svc ->
    Turn env services_db bookings_db session user_input
      bookings_db
      (CS.set_state st_datetime (CS.set_selected_service (Some svc) session))
| turn_datetime (svc : Service.t) (date time_slot : string) :
    CS.state session = st_datetime ->
    CS.selected_service session = Some svc ->
    extract_datetime env user_input = Ok (date, time_slot) ->
    mem time_slot (Service.available_slots svc) = true ->
    is_slot_available bookings_db (Service.id svc) date time_slot = true ->
    Turn env services_db bookings_db session user_input
      bookings_db (with_slot date time_slot session)
| turn_confirm (svc : Service.t) :
    CS.state session = st_confirmation ->
    says_goodbye user_input = false ->
    classify user_input = i_confirm ->
    CS.selected_service session = Some svc ->
    Turn env services_db bookings_db session user_input
      (dict_set (uuid4 env)
         (Booking.mk (uuid4 env) (CS.user_name session) (Service.id svc)
            (CS.selected_date session) (CS.selected_time session) confirmed)
         bookings_db)
      (CS.set_state st_completed session)
| turn_deny :
    CS.state session = st_confirmation ->
    classify user_input = i_deny ->
    Turn env services_db bookings_db session user_input
      bookings_db (CS.set_state st_service session).

(** Two states of the bookings store with the same keys in the same order,
    where an entry is either untouched or went from confirmed to
    cancelled. *)
Definition only_cancels (d d' : dict Booking.t) : Prop :=
  Forall2 (fun e e' =>
             fst e' = fst e
             /\ (snd e' = snd e
                 \/ (Booking.status (snd e) = confirmed
                     /\ snd e' = Booking.set_status cancelled (snd e))))
    d d'.

(** Every service is stored under its own identifier, once. *)
Definition catalog_ok (services_db : dict Service.t) : Prop :=
  NoDup (map fst services_db)
  /\ Forall (fun e => Service.id (snd e) = fst e) services_db.

(** A booking refers to a service of the catalogue, has a date, and its
    time is one of that service's slots. *)
Definition booking_wf (services_db : dict Service.t) (b : Booking.t) : Prop :=
  exists svc date time_slot,
    dict_get (Booking.service_id b) services_db = Ok svc
    /\ Booking.date b = Some date
    /\ Booking.time b = Some time_slot
    /\ mem time_slot (Service.available_slots svc) = true.

(** A session's selection is consistent with its state: a selected service
    comes from the catalogue, the datetime and confirmation states have
    one, and the confirmation state has a date and a time that is one of
    the selected service's slots. *)
Definition session_wf (services_db : dict Service.t) (s : CS.t) : Prop :=
  (forall svc, CS.selected_service s = Some svc -> In svc (values services_db))
  /\ (CS.state s = st_datetime \/ CS.state s = st_confirmation ->
      CS.selected_service s <> None)
  /\ (CS.state s = st_confirmation ->
      exists svc date time_slot,
        CS.selected_service s = Some svc
        /\ CS.selected_date s = Some date
        /\ CS.selected_time s = Some time_slot
        /\ mem time_slot (Service.available_slots svc) = true).

Definition world_wf (w : World) : Prop :=
  catalog_ok (services_db w)
  /\ Forall (booking_wf (services_db w)) (values (bookings_db w))
  /\ Forall (session_wf (services_db w)) (values (sessions_db w)).

(** A string that does not begin with white space. *)
Definition starts_clean (s : string) : Prop :=
  match s with
  | EmptyString => True
  | String c _ => is_space c = false
  end.

(** ** Vocabulary for request bodies *)

Definition is_object (data : json) : bool :=
  match data with JObj _ => true | _ => false end.

(** What [data.get("session_id")] yields on the members of an object. *)
Definition session_id_of (fields : list (string * json)) : json :=
  match obj_get "session_id" fields with Some v => v | None => JNull end.

(** The message of the body can be trimmed: it is a string, or absent (the
    default is the empty string). *)
Definition message_ok (fields : list (string * json)) : bool :=
  match obj_get "message" fields with
  | None | Some (JStr _) => true
  | Some _ => false
  end.

(** The identifier is truthy and cannot be hashed: a list or an object
    that is not empty. *)
Definition unhashable (v : json) : bool :=
  match v with
  | JArr (_ :: _) | JObj (_ :: _) => true
  | _ => false
  end.

(** The identifier names no session and its lookup does not raise: it is
    falsy, or a string that is no key, or a number or boolean. *)
Definition no_session (v : json) (w : World) : bool :=
  match v with
  | JStr sid => negb (truthy sid) || negb (dict_has sid (sessions_db w))
  | JArr (_ :: _) | JObj (_ :: _) => false
  | _ => true
  end.

(** An exception that the request body itself calls for. *)
Definition request_fault (needs_message : bool) (data : json) (e : exn) : Prop :=
  e = HTTPException 404 "Session not found"
  \/ (e = AttributeError /\ is_object data = false)
  \/ (exists fields,
         data = JObj fields
         /\ ((e = AttributeError /\ needs_message = true
              /\ message_ok fields = false)
             \/ (e = TypeError /\ unhashable (session_id_of fields) = true))).

(** An exception raised by the [print] of an [except] handler: of the
    date handler on a parser error, or of the speech handler on what the
    recogniser raised. *)
Definition date_print_fault (env : Env) (e : exn) : Prop :=
  exists text e0,
    parse env text = Raise e0
    /\ print_exn env "Date parsing error: " e0 = Raise e.

Definition speech_print_fault (env : Env) (recognized : res string) (e : exn)
  : Prop :=
  exists e0,
    recognized = Raise e0
    /\ print_exn env "Speech recognition error: " e0 = Raise e.

(** A standard output that takes every text. *)
Definition print_never_raises (env : Env) : Prop :=
  forall prefix e, print_exn env prefix e = Ok tt.

(** * Properties *)

(** ** Facts about substrings *)

Lemma append_assoc (a b c : string) : (a ++ b) ++ c = a ++ (b ++ c).
Proof.
  induction a as [|x a IH]; simpl; [reflexivity | now rewrite IH].
Qed.

Lemma prefix_split (a s : string) :
  prefix a s = true <-> exists q, s = a ++ q.
Proof.
  revert s; induction a as [|x a IH]; intros s.
  - destruct s; simpl; split; intros; eauto.
  - destruct s as [|y s]; simpl.
    + split; [discriminate | intros [q Hq]; discriminate].
    + destruct (ascii_dec x y) as [->|Hne].
      * rewrite IH. split; intros [q Hq]; exists q; congruence.
      * split; [discriminate | intros [q Hq]; congruence].
Qed.

Lemma contains_nil (kw : string) :
  contains kw EmptyString = prefix kw EmptyString.
Proof. simpl. apply orb_false_r. Qed.

Lemma contains_cons (kw : string) (c : ascii) (t : string) :
  contains kw (String c t) = prefix kw (String c t) || contains kw t.
Proof. reflexivity. Qed.

Lemma contains_split (kw t : string) :
  contains kw t = true <-> exists p q, t = p ++ kw ++ q.
Proof.
  induction t as [|c t IH].
  - rewrite contains_nil, prefix_split. split.
    + intros [q Hq]. now exists EmptyString, q.
    + intros [p [q Hq]]. destruct p; simpl in Hq; [eauto | discriminate].
  - rewrite contains_cons, orb_true_iff, IH, prefix_split.
    split.
    + intros [[q Hq] | [p [q Hq]]].
      * now exists EmptyString, q.
      * exists (String c p), q. simpl. now rewrite Hq.
    + intros [p [q Hq]]. destruct p as [|x p]; simpl in Hq.
      * left. eauto.
      * right. exists p, q. congruence.
Qed.

Lemma contains_trans (a b t : string) :
  contains a b = true -> contains b t = true -> contains a t = true.
Proof.
  rewrite !contains_split.
  intros [p1 [q1 ->]] [p2 [q2 ->]].
  exists (p2 ++ p1), (q1 ++ q2).
  now rewrite !append_assoc.
Qed.

(** A keyword list all of whose members contain a keyword of another list
    can only match where the other list matches. *)
Lemma any_in_covered (ks ks' : list string) (t : string) :
  forallb (fun k => any_in ks' k) ks = true ->
  any_in ks t = true -> any_in ks' t = true.
Proof.
  unfold any_in. rewrite forallb_forall, !existsb_exists.
  intros Hcov [k [Hk Hkt]].
  destruct (proj1 (existsb_exists _ _) (Hcov k Hk)) as [k' [Hk' Hk'k]].
  exists k'. split; [assumption | eapply contains_trans; eassumption].
Qed.

(** ** Facts about the classifier *)

Lemma classify_loop_unfold (t : string) :
  classify_loop intents t =
  if matches i_greeting t then i_greeting
  else if matches i_booking t then i_booking
  else if matches i_availability t then i_availability
  else if matches i_cancel t then i_cancel
  else if matches i_update t then i_update
  else if matches i_show_bookings t then i_show_bookings
  else if matches i_help t then i_help
  else if matches i_confirm t then i_confirm
  else if matches i_deny t then i_deny
  else i_unknown.
Proof. reflexivity. Qed.

Ltac split_matches t :=
  destruct (matches i_greeting t) eqn:Hgreeting;
  [| destruct (matches i_booking t) eqn:Hbooking;
  [| destruct (matches i_availability t) eqn:Havailability;
  [| destruct (matches i_cancel t) eqn:Hcancel;
  [| destruct (matches i_update t) eqn:Hupdate;
  [| destruct (matches i_show_bookings t) eqn:Hshow;
  [| destruct (matches i_help t) eqn:Hhelp;
  [| destruct (matches i_confirm t) eqn:Hconfirm;
  [| destruct (matches i_deny t) eqn:Hdeny ]]]]]]]].

Lemma classify_loop_is_first_match (t : string) :
  first_match t (classify_loop intents t).
Proof.
  rewrite classify_loop_unfold. unfold first_match, priority.
  split_matches t.
  - left. exists [], (tl priority). repeat split; auto.
  - left. exists (firstn 1 priority), (skipn 2 priority).
    repeat split; auto. repeat constructor; assumption.
  - left. exists (firstn 2 priority), (skipn 3 priority).
    repeat split; auto. repeat constructor; assumption.
  - left. exists (firstn 3 priority), (skipn 4 priority).
    repeat split; auto. repeat constructor; assumption.
  - left. exists (firstn 4 priority), (skipn 5 priority).
    repeat split; auto. repeat constructor; assumption.
  - left. exists (firstn 5 priority), (skipn 6 priority).
    repeat split; auto. repeat constructor; assumption.
  - left. exists (firstn 6 priority), (skipn 7 priority).
    repeat split; auto. repeat constructor; assumption.
  - left. exists (firstn 7 priority), (skipn 8 priority).
    repeat split; auto. repeat constructor; assumption.
  - left. exists (firstn 8 priority), (skipn 9 priority).
    repeat split; auto. repeat constructor; assumption.
  - right. split; [reflexivity | repeat constructor; assumption].
Qed.

(** Every show-bookings phrase contains the booking keyword [book], and
    the booking intent is tested first. *)
Lemma show_bookings_shadowed (t : string) :
  matches i_show_bookings t = true -> matches i_booking t = true.
Proof. apply any_in_covered. reflexivity. Qed.

Lemma classify_never_show_bookings (text : string) :
  classify text <> i_show_bookings.
Proof.
  unfold classify. set (t := strip (lower text)).
  rewrite classify_loop_unfold.
  split_matches t; try discriminate.
  apply show_bookings_shadowed in Hshow. congruence.
Qed.

(** ** Intent classification order *)

(** C8, as the classifier behaves: [classify] lower-cases and trims the
    text, tests the intents in the order greeting, booking, availability,
    cancel, update, show_bookings, help, confirm, deny, answers the first
    one with a keyword occurring in the text and [unknown] when there is
    none.  A text with both a cancel keyword and a deny keyword is never
    classified deny, and is classified cancel exactly when no greeting,
    booking or availability keyword occurs in it. *)
Theorem classify_priority_order (text : string) :
  let t := strip (lower text) in
  map fst intents = priority
  /\ first_match t (classify text)
  /\ (matches i_cancel t = true -> matches i_deny t = true ->
      classify text <> i_deny
      /\ (classify text = i_cancel <->
          matches i_greeting t = false
          /\ matches i_booking t = false
          /\ matches i_availability t = false)).
Proof.
  intros t. split; [reflexivity |]. split.
  - apply classify_loop_is_first_match.
  - intros Hc Hd. unfold classify. fold t. rewrite classify_loop_unfold.
    rewrite Hc.
    destruct (matches i_greeting t), (matches i_booking t),
      (matches i_availability t);
      (split; [discriminate | split; [try discriminate; auto | ]]);
      intros [H1 [H2 H3]]; try discriminate; reflexivity.
Qed.

Lemma classify_priority_order_witness :
  classify "Cancel it now" = i_cancel.
Proof.
  apply (proj2 (proj2 (classify_priority_order "Cancel it now"))).
  - reflexivity.
  - reflexivity.
  - repeat split; reflexivity.
Defined.

(** C8 as stated fails: "cancel my appointment" holds a cancel keyword and
    a deny keyword (the word cancel is both), yet it is classified
    booking. *)
Lemma cancel_keyword_not_always_cancel :
  let text := "cancel my appointment" in
  let t := strip (lower text) in
  matches i_cancel t = true
  /\ matches i_deny t = true
  /\ classify text = i_booking
  /\ classify text <> i_cancel.
Proof. vm_compute. repeat split; discriminate. Qed.

(** ** The show-bookings intent *)

(** C4: the show-bookings branch is never taken.  No text is classified
    show_bookings; a fresh session that receives "show my bookings" is
    greeted and moves to the name state, and a caller who has just booked
    gets the did-not-understand reply instead of the list. *)
Theorem show_bookings_never_answered :
  (forall text, classify text <> i_show_bookings)
  /\ (let w := run Scenario.w0 [(Scenario.env "s1", StartSession)] in
      state_of w "s1" = Some st_greeting
      /\ snd (send_message (Scenario.env "-") (text_message "s1" "show my bookings") w)
         = Ok (msg_welcome, st_name))
  /\ (let w := run Scenario.w0 Scenario.alice_books in
      state_of w "s1" = Some st_completed
      /\ snd (send_message (Scenario.env "-") (text_message "s1" "show my bookings") w)
         = Ok (msg_not_understood, st_completed)).
Proof.
  split; [exact classify_never_show_bookings |].
  split; vm_compute; split; reflexivity.
Qed.

(** ** Name extraction *)

(** C5 as stated fails on its second vector: the pattern captures one
    word, so "call me Mary Jane" yields "Mary". *)
Lemma call_me_mary_jane_is_mary :
  extract_name "call me Mary Jane" = Some "Mary"
  /\ extract_name "call me Mary Jane" <> Some "Mary Jane".
Proof. split; [reflexivity | vm_compute; discriminate]. Qed.

(** C5, amended: "I'm Bob" yields "Bob", "call me Mary Jane" yields
    "Mary", "xyz123" yields nothing, and a session in the name state that
    receives "xyz123" is left as it was (so it stays in the name state) and
    is asked for the name again; the bookings are untouched. *)
Theorem name_extraction_vectors (env : Env) (services_db : dict Service.t)
    (bookings_db : dict Booking.t) (session : CS.t) :
  CS.state session = st_name ->
  extract_name "I'm Bob" = Some "Bob"
  /\ extract_name "call me Mary Jane" = Some "Mary"
  /\ extract_name "xyz123" = None
  /\ get_response_for_state env services_db bookings_db session "xyz123"
     = Ok (bookings_db, session, msg_name_again).
Proof.
  intros Hst. repeat split; try reflexivity.
  unfold get_response_for_state.
  change (any_in GOODBYE_KEYWORDS (lower "xyz123")) with false.
  change (classify "xyz123") with i_unknown.
  cbv iota. rewrite Hst. reflexivity.
Qed.

Lemma name_extraction_vectors_witness :
  get_response_for_state (Scenario.env "-") (services_db Scenario.w0) []
    (CS.set_state st_name (CS.new "s1")) "xyz123"
  = Ok ([], CS.set_state st_name (CS.new "s1"), msg_name_again).
Proof.
  apply (name_extraction_vectors (Scenario.env "-") (services_db Scenario.w0) []
           (CS.set_state st_name (CS.new "s1"))).
  reflexivity.
Defined.

(** ** Date and time extraction *)

(** What [extract_datetime] returns, by the outcome of the parser and of
    the handler's [print]. *)
Lemma extract_datetime_outcome (env : Env) (text : string) :
  extract_datetime env text
  = match parse env (strip text) with
    | Ok r => Ok r
    | Raise e =>
        match print_exn env "Date parsing error: " e with
        | Ok _ => Ok (tomorrow env, "09:00 AM")
        | Raise e' => Raise e'
        end
    end.
Proof.
  unfold extract_datetime, try_except, bind.
  destruct (parse env (strip text)); [reflexivity |].
  destruct (print_exn env "Date parsing error: " e); reflexivity.
Qed.

(** C7: the handler of [extract_datetime] catches the parser's exception
    but prints it before it returns the fallback, and that [print] is
    inside no [try].  For the message "blah" followed by a lone surrogate
    the parser raises, the error text quotes the message, the UTF-8
    standard output refuses it, and [extract_datetime] raises the
    [UnicodeEncodeError] instead of returning tomorrow at nine; a session
    in the datetime state that receives the message gets that exception,
    not a reply, and stays in the datetime state. *)
Theorem extract_datetime_print_escapes :
  let env := Scenario.env_utf8_stdout "-" in
  let text := "blah " ++ Scenario.surrogate in
  let w := run Scenario.w0 Scenario.to_datetime in
  (exists msg, parse env (strip text) = Raise (ParserError msg))
  /\ extract_datetime env text
     = Raise (UnicodeEncodeError "surrogates not allowed")
  /\ state_of w "s1" = Some st_datetime
  /\ snd (send_message env (text_message "s1" text) w)
     = Raise (UnicodeEncodeError "surrogates not allowed")
  /\ state_of (fst (send_message env (text_message "s1" text) w)) "s1"
     = Some st_datetime.
Proof.
  vm_compute. repeat split; try reflexivity.
  eexists. reflexivity.
Qed.

(** C6 as stated fails: the caller has chosen the haircut, the parser
    raises on "blah", and the session moves to the confirmation state with
    tomorrow at nine recorded. *)
Lemma parse_failure_reaches_confirmation :
  let w := run Scenario.w0 Scenario.to_datetime in
  let w' := step w (Scenario.env "-", SendMessage (text_message "s1" "blah")) in
  state_of w "s1" = Some st_datetime
  /\ parse (Scenario.env "-") "blah"
     = Raise (ParserError "String does not contain a date: blah")
  /\ state_of w' "s1" = Some st_confirmation
  /\ (exists s, dict_get "s1" (sessions_db w') = Ok s
                /\ CS.selected_date s = Some "2026-11-04"
                /\ CS.selected_time s = Some "09:00 AM").
Proof.
  vm_compute. repeat split; try reflexivity.
  eexists. repeat split; reflexivity.
Qed.

(** C6, amended: in the datetime state, for a message without goodbye
    keyword and not classified as a global intent, a parser failure whose
    error the handler manages to print makes the handler go on with
    tomorrow's date and "09:00 AM".  When that label
    is one of the selected service's slots and the slot is free, the
    session records them and moves to the confirmation state; when the
    slot is taken it stays in the datetime state with the slot-unavailable
    reply; when the label is not one of the service's slots it stays in the
    datetime state with the generic re-prompt.  In the last two cases
    nothing is recorded. *)
Theorem datetime_parse_failure_falls_back (env : Env)
    (services_db : dict Service.t) (bookings_db : dict Booking.t)
    (session : CS.t) (svc : Service.t) (user_input : string) (e : exn) :
  CS.state session = st_datetime ->
  CS.selected_service session = Some svc ->
  says_goodbye user_input = false ->
  is_global (classify user_input) = false ->
  parse env (strip user_input) = Raise e ->
  print_exn env "Date parsing error: " e = Ok tt ->
  truthy (tomorrow env) = true ->
  get_response_for_state env services_db bookings_db session user_input
  = if mem "09:00 AM" (Service.available_slots svc) then
      if is_slot_available bookings_db (Service.id svc) (tomorrow env) "09:00 AM"
      then Ok (bookings_db, with_slot (tomorrow env) "09:00 AM" session,
               msg_summary session svc (tomorrow env) "09:00 AM")
      else Ok (bookings_db, session, msg_slot_taken svc)
    else Ok (bookings_db, session, msg_datetime_again).
Proof.
  intros Hst Hsvc Hbye Hglob Hparse Hprint Htom.
  unfold get_response_for_state. unfold says_goodbye in Hbye. rewrite Hbye.
  assert (Hdt : handle_datetime_state env bookings_db session user_input
                = if mem "09:00 AM" (Service.available_slots svc) then
                    if is_slot_available bookings_db (Service.id svc)
                         (tomorrow env) "09:00 AM"
                    then Ok (with_slot (tomorrow env) "09:00 AM" session,
                             msg_summary session svc (tomorrow env) "09:00 AM")
                    else Ok (session, msg_slot_taken svc)
                  else Ok (session, msg_datetime_again)).
  { unfold handle_datetime_state. rewrite extract_datetime_outcome.
    rewrite Hparse, Hprint. unfold bind. rewrite Htom, Hsvc. reflexivity. }
  destruct (classify user_input); try discriminate Hglob;
    cbv iota; rewrite Hst, Hdt;
    destruct (mem "09:00 AM" (Service.available_slots svc));
    try destruct (is_slot_available bookings_db (Service.id svc)
                    (tomorrow env) "09:00 AM");
    reflexivity.
Qed.

Lemma datetime_parse_failure_falls_back_witness :
  get_response_for_state (Scenario.env "-") (services_db Scenario.w0) []
    (CS.set_state st_datetime
       (CS.set_selected_service (Some (haircut "svc-h")) (CS.new "s1")))
    "blah"
  = Ok ([],
        with_slot "2026-11-04" "09:00 AM"
          (CS.set_state st_datetime
             (CS.set_selected_service (Some (haircut "svc-h")) (CS.new "s1"))),
        msg_summary
          (CS.set_state st_datetime
             (CS.set_selected_service (Some (haircut "svc-h")) (CS.new "s1")))
          (haircut "svc-h") "2026-11-04" "09:00 AM").
Proof.
  apply (@datetime_parse_failure_falls_back (Scenario.env "-")
           (services_db Scenario.w0) []
           (CS.set_state st_datetime
              (CS.set_selected_service (Some (haircut "svc-h")) (CS.new "s1")))
           (haircut "svc-h") "blah"
           (ParserError "String does not contain a date: blah"));
    reflexivity.
Defined.

(** ** Facts about dictionaries and the loops *)

Lemma opt_eqb_eq (a b : option string) : opt_eqb a b = true <-> a = b.
Proof.
  destruct a as [x|], b as [y|]; simpl; try (split; congruence).
  rewrite String.eqb_eq. split; congruence.
Qed.

Lemma dict_get_set_same (V : Type) (k : string) (v : V) (d : dict V) :
  dict_get k (dict_set k v d) = Ok v.
Proof.
  induction d as [|[k' v'] r IH]; simpl.
  - now rewrite String.eqb_refl.
  - destruct (String.eqb k k') eqn:E; simpl; rewrite E; [reflexivity | exact IH].
Qed.

Lemma dict_get_has (V : Type) (k : string) (v : V) (d : dict V) :
  dict_get k d = Ok v -> dict_has k d = true.
Proof.
  induction d as [|[k' v'] r IH]; simpl; [discriminate |].
  destruct (String.eqb k k'); simpl; auto.
Qed.

Lemma dict_has_get_ok (V : Type) (k : string) (d : dict V) :
  dict_has k d = true -> exists v, dict_get k d = Ok v.
Proof.
  induction d as [|[k0 v0] r IH]; simpl; [discriminate |].
  destruct (String.eqb k k0); simpl; eauto.
Qed.

Lemma dict_get_In (V : Type) (k : string) (v : V) (d : dict V) :
  dict_get k d = Ok v -> In v (values d).
Proof.
  induction d as [|[k' v'] r IH]; simpl; [discriminate |].
  destruct (String.eqb k k'); [intros [= ->]; now left | auto].
Qed.

Lemma Forall_dict_set (V : Type) (P : V -> Prop) (k : string) (v : V) (d : dict V) :
  Forall P (values d) -> P v -> Forall P (values (dict_set k v d)).
Proof.
  unfold values. induction d as [|[k' v'] r IH]; simpl; intros Hd Hv.
  - repeat constructor; assumption.
  - inversion Hd; subst. destruct (String.eqb k k'); simpl; constructor; auto.
Qed.

Lemma cancel_loop_fst (session : CS.t) (d : dict Booking.t) :
  fst (cancel_loop session d) = cancel_for session d.
Proof.
  induction d as [|[k b] r IH]; simpl; [reflexivity |].
  destruct (cancel_loop session r) as [r' c]; simpl in IH; subst r'.
  destruct (owned_confirmed session b); reflexivity.
Qed.

Lemma cancel_loop_snd (session : CS.t) (d : dict Booking.t) :
  snd (cancel_loop session d)
  = map (Booking.set_status cancelled) (mine session d).
Proof.
  unfold mine, values.
  induction d as [|[k b] r IH]; simpl; [reflexivity |].
  destruct (cancel_loop session r) as [r' c]; simpl in IH; subst c.
  destruct (owned_confirmed session b); reflexivity.
Qed.

Lemma owned_confirmed_cancelled (session : CS.t) (b : Booking.t) :
  owned_confirmed session (Booking.set_status cancelled b) = false.
Proof. unfold owned_confirmed. simpl. apply andb_false_r. Qed.

Lemma mine_cancel_for (session : CS.t) (d : dict Booking.t) :
  mine session (cancel_for session d) = [].
Proof.
  unfold mine, values, cancel_for.
  induction d as [|[k b] r IH]; simpl; [reflexivity |].
  destruct (owned_confirmed session b) eqn:E.
  - now rewrite owned_confirmed_cancelled.
  - now rewrite E.
Qed.

Lemma update_loop_none (services_db : dict Service.t) (session : CS.t)
    (d : dict Booking.t) :
  mine session d = [] -> update_loop services_db session d = Ok None.
Proof.
  unfold mine, values.
  induction d as [|[k b] r IH]; simpl; [reflexivity |].
  destruct (owned_confirmed session b); [discriminate |].
  intros H. now rewrite (IH H).
Qed.

(** The update shortcut only fires on a confirmed booking that carries the
    session's user name, and changes nothing but one status. *)
Lemma update_loop_some (services_db : dict Service.t) (session : CS.t)
    (d d' : dict Booking.t) (svc : Service.t) :
  update_loop services_db session d = Ok (Some (d', svc)) ->
  (exists b, In b (values d) /\ Booking.user_name b = CS.user_name session)
  /\ map Booking.user_name (values d') = map Booking.user_name (values d).
Proof.
  unfold values. revert d'.
  induction d as [|[k b] r IH]; simpl; intros d'; [discriminate |].
  destruct (owned_confirmed session b) eqn:E.
  - destruct (dict_get (Booking.service_id b) services_db); simpl; [|discriminate].
    intros [= <- <-]. split; [| reflexivity].
    exists b. split; [now left |].
    unfold owned_confirmed in E. apply andb_true_iff in E.
    now apply opt_eqb_eq.
  - destruct (update_loop services_db session r) as [[[r' svc']|]|]; simpl;
      try discriminate.
    intros [= <- <-]. destruct (IH r' eq_refl) as [[b0 [Hin Hb0]] Hmap].
    split; [exists b0; auto |]. simpl. now rewrite Hmap.
Qed.

(** ** Facts about the routes *)

Lemma text_message_fields (session_id message : string) :
  json_get (JObj [("session_id", JStr session_id); ("message", JStr message)])
    "session_id" JNull = Ok (JStr session_id)
  /\ json_get (JObj [("session_id", JStr session_id); ("message", JStr message)])
       "message" (JStr EmptyString) = Ok (JStr message).
Proof. split; reflexivity. Qed.

Lemma find_session_found (w : World) (session_id : string) (session : CS.t) :
  truthy session_id = true ->
  dict_get session_id (sessions_db w) = Ok session ->
  find_session (JStr session_id) w = Ok (session_id, session).
Proof.
  intros Hid Hget. unfold find_session. simpl json_truthy.
  rewrite Hid, (dict_get_has _ _ Hget), Hget. reflexivity.
Qed.

(** What the lookup of a session can do. *)
Lemma find_session_cases (v : json) (w : World) :
  find_session v w = Raise (HTTPException 404 "Session not found")
  \/ (find_session v w = Raise TypeError
      /\ match v with JArr (_ :: _) | JObj (_ :: _) => True | _ => False end)
  \/ exists session_id session,
      v = JStr session_id
      /\ truthy session_id = true
      /\ dict_get session_id (sessions_db w) = Ok session
      /\ find_session v w = Ok (session_id, session).
Proof.
  unfold find_session.
  destruct (json_truthy v) eqn:Ht; simpl; [| now left].
  destruct v as [|b|z|nz|s|[|x items]|[|f fields]]; auto; try discriminate Ht.
  destruct (dict_has s (sessions_db w)) eqn:Hh; simpl; [| now left].
  right. right. destruct (dict_has_get_ok _ _ Hh) as [session Hget].
  exists s, session. rewrite Hget. auto.
Qed.

(** The text route on a session that exists. *)
Lemma send_message_found (env : Env) (w : World) (session_id message : string)
    (session : CS.t) :
  truthy session_id = true ->
  dict_get session_id (sessions_db w) = Ok session ->
  send_message env (text_message session_id message) w
  = let s1 := CS.append_history (user, strip message) session in
    match get_response_for_state env (services_db w) (bookings_db w) s1
            (strip message) with
    | Raise e =>
        (mkWorld (services_db w) (bookings_db w)
           (dict_set session_id s1 (sessions_db w)), Raise e)
    | Ok (bookings_db', session', response) =>
        let session' := CS.append_history (assistant, response) session' in
        (mkWorld (services_db w) bookings_db'
           (dict_set session_id session' (sessions_db w)),
         Ok (response, CS.state session'))
    end.
Proof.
  intros Hid Hget. unfold send_message, text_message, bind.
  destruct (text_message_fields session_id message) as [-> ->].
  unfold json_strip.
  rewrite (@find_session_found w session_id session Hid Hget). reflexivity.
Qed.

(** Whatever the body, the text route either leaves the stores alone and
    raises, or serves a turn of a session that exists. *)
Lemma send_message_cases (env : Env) (body : res json) (w : World) :
  (exists e, send_message env body w = (w, Raise e))
  \/ exists session_id session user_text,
      truthy session_id = true
      /\ dict_get session_id (sessions_db w) = Ok session
      /\ send_message env body w = serve_turn env session_id session user_text w.
Proof.
  unfold send_message, bind.
  destruct body as [data|e]; [| eauto].
  destruct (json_get data "session_id" JNull) as [v|e]; [| eauto].
  destruct (json_get data "message" (JStr EmptyString)) as [m|e]; [| eauto].
  destruct (json_strip m) as [text|e]; [| eauto].
  destruct (find_session_cases v w)
    as [H | [[H _] | [sid [session [_ [Hid [Hget H]]]]]]];
    rewrite H; eauto 10.
Qed.

(** ** The cancel intent *)

(** C9 as stated fails: Alice has a confirmed booking and sends a message
    that is classified cancel but also holds a goodbye keyword; the session
    ends and the booking stays confirmed. *)
Lemma cancel_with_goodbye_only_ends :
  let w := run Scenario.w0 Scenario.alice_books in
  let w' := step w (Scenario.env "-", SendMessage (text_message "s1" "please cancel, goodbye")) in
  classify "please cancel, goodbye" = i_cancel
  /\ state_of w' "s1" = Some st_ended
  /\ state_of w' "s1" <> Some st_greeting
  /\ map Booking.status (values (bookings_db w')) = [confirmed].
Proof. vm_compute. repeat split; discriminate. Qed.

(** C9, amended: a message without goodbye keyword that is classified
    cancel sets the status cancelled on every confirmed booking whose user
    name equals the session's and leaves the other bookings alone; when at
    least one booking was cancelled the session's state becomes greeting
    and the success reply is returned, otherwise the nothing-to-cancel
    reply is returned and the session is unchanged; afterwards every booking
    under the session's user name is cancelled. *)
Theorem cancel_intent_cancels_all (env : Env) (services_db : dict Service.t)
    (bookings_db : dict Booking.t) (session : CS.t) (user_input : string) :
  says_goodbye user_input = false ->
  classify user_input = i_cancel ->
  get_response_for_state env services_db bookings_db session user_input
  = Ok (cancel_for session bookings_db,
        match mine session bookings_db with
        | [] => session
        | _ => CS.set_state st_greeting session
        end,
        match mine session bookings_db with
        | [] => msg_nothing_to_cancel
        | _ => msg_cancelled
        end)
  /\ Forall (fun b => Booking.user_name b = CS.user_name session ->
                      Booking.status b = cancelled)
       (values (cancel_for session bookings_db)).
Proof.
  intros Hbye Hc. split.
  - unfold get_response_for_state. unfold says_goodbye in Hbye.
    rewrite Hbye, Hc.
    pose proof (cancel_loop_fst session bookings_db) as H1.
    pose proof (cancel_loop_snd session bookings_db) as H2.
    destruct (cancel_loop session bookings_db) as [d' c]. simpl in H1, H2.
    subst d' c. destruct (mine session bookings_db); reflexivity.
  - apply Forall_forall. intros b Hin Hname.
    pose proof (mine_cancel_for session bookings_db) as Hm.
    unfold mine in Hm.
    destruct (Booking.status b) eqn:Hs; [| reflexivity].
    assert (Hown : owned_confirmed session b = true).
    { unfold owned_confirmed, is_confirmed. rewrite Hs.
      apply andb_true_iff. split; [now apply opt_eqb_eq | reflexivity]. }
    assert (Hf : In b (filter (owned_confirmed session)
                         (values (cancel_for session bookings_db)))).
    { apply filter_In. split; assumption. }
    rewrite Hm in Hf. destruct Hf.
Qed.

Lemma cancel_intent_cancels_all_witness :
  let session := CS.set_user_name (Some "Alice") (CS.new "s1") in
  let bookings_db :=
    [("b1", Booking.mk "b1" (Some "Alice") "svc-h" (Some "2026-11-04")
              (Some "09:00 AM") confirmed)] in
  get_response_for_state (Scenario.env "-") (services_db Scenario.w0)
    bookings_db session "cancel"
  = Ok (cancel_for session bookings_db,
        match mine session bookings_db with
        | [] => session
        | _ => CS.set_state st_greeting session
        end,
        match mine session bookings_db with
        | [] => msg_nothing_to_cancel
        | _ => msg_cancelled
        end).
Proof.
  intros session bookings_db.
  apply (proj1 (@cancel_intent_cancels_all (Scenario.env "-")
                  (services_db Scenario.w0) bookings_db session "cancel"
                  eq_refl eq_refl)).
Defined.

(** ** Terminal states *)

(** What a turn does to the state of a terminal session when the goodbye
    test and the cancel and update shortcuts do not fire.  When the
    dispatcher raises, nothing has been written. *)
Lemma terminal_turn_state (env : Env) (services_db : dict Service.t)
    (bookings_db : dict Booking.t) (session : CS.t) (user_input : string) :
  terminal (CS.state session) = true ->
  (says_goodbye user_input = true -> CS.state session = st_ended) ->
  (classify user_input = i_cancel \/ classify user_input = i_update ->
   mine session bookings_db = []) ->
  match get_response_for_state env services_db bookings_db session user_input with
  | Ok (_, session', _) => CS.state session' = CS.state session
  | Raise _ => True
  end.
Proof.
  intros Hterm Hbye Hglob.
  unfold get_response_for_state. fold (says_goodbye user_input).
  destruct (says_goodbye user_input) eqn:Eb.
  - simpl. now rewrite Hbye.
  - destruct (classify user_input) eqn:Ec;
      try (revert Hterm; destruct (CS.state session) eqn:Es; intros Hterm;
           try discriminate Hterm; exact Es).
    + pose proof (cancel_loop_snd session bookings_db) as H2.
      destruct (cancel_loop session bookings_db) as [d' c]. simpl in H2.
      rewrite (Hglob (or_introl eq_refl)) in H2. subst c. reflexivity.
    + rewrite (update_loop_none services_db session bookings_db
                 (Hglob (or_intror eq_refl))).
      reflexivity.
    + destruct (filter (owned_confirmed session) (values bookings_db)).
      * reflexivity.
      * destruct (booking_lines services_db (t :: l)); simpl; [reflexivity | exact I].
Qed.

Lemma terminal_turn_reply (env : Env) (services_db : dict Service.t)
    (bookings_db : dict Booking.t) (session : CS.t) (user_input : string) :
  terminal (CS.state session) = true ->
  says_goodbye user_input = false ->
  is_global (classify user_input) = false ->
  get_response_for_state env services_db bookings_db session user_input
  = Ok (bookings_db, session, msg_terminal (CS.state session)).
Proof.
  intros Hterm Hbye Hglob.
  unfold get_response_for_state. fold (says_goodbye user_input). rewrite Hbye.
  destruct (classify user_input); try discriminate Hglob;
    revert Hterm; destruct (CS.state session); intros Hterm;
    try discriminate Hterm; reflexivity.
Qed.

(** C3 as stated fails.  Alice's session is completed after her booking:
    "change it" moves it to the datetime state and "bye" to ended; once
    ended, "cancel" moves it to greeting. *)
Lemma terminal_states_are_left :
  let w := run Scenario.w0 Scenario.alice_books in
  let w_bye := step w (Scenario.env "-", SendMessage (text_message "s1" "bye")) in
  state_of w "s1" = Some st_completed
  /\ state_of (step w (Scenario.env "-", SendMessage (text_message "s1" "change it"))) "s1"
     = Some st_datetime
  /\ state_of w_bye "s1" = Some st_ended
  /\ state_of (step w_bye (Scenario.env "-", SendMessage (text_message "s1" "cancel"))) "s1"
     = Some st_greeting.
Proof. vm_compute. repeat split; reflexivity. Qed.

(** C3, amended: for a session whose state is completed or ended, a
    message leaves the state unchanged provided that it holds no goodbye
    keyword (in the ended state a goodbye keeps the state too) and that,
    when it is classified cancel or update, no confirmed booking carries
    the session's user name.  A message without goodbye keyword that is not
    classified as a global intent gets the fixed session-ended reply in the
    ended state and the fixed did-not-understand reply in the completed
    state. *)
Theorem terminal_state_preserved (env : Env) (w : World)
    (session_id message : string) (session : CS.t) :
  truthy session_id = true ->
  dict_get session_id (sessions_db w) = Ok session ->
  terminal (CS.state session) = true ->
  (says_goodbye (strip message) = true -> CS.state session = st_ended) ->
  (classify (strip message) = i_cancel \/ classify (strip message) = i_update ->
   mine session (bookings_db w) = []) ->
  state_of (fst (send_message env (text_message session_id message) w)) session_id
  = Some (CS.state session)
  /\ (says_goodbye (strip message) = false ->
      is_global (classify (strip message)) = false ->
      snd (send_message env (text_message session_id message) w)
      = Ok (msg_terminal (CS.state session), CS.state session)).
Proof.
  intros Hid Hget Hterm Hbye Hglob.
  set (s1 := CS.append_history (user, strip message) session).
  assert (Hsm : send_message env (text_message session_id message) w
                = match get_response_for_state env (services_db w)
                          (bookings_db w) s1 (strip message) with
                  | Raise e =>
                      (mkWorld (services_db w) (bookings_db w)
                         (dict_set session_id s1 (sessions_db w)), Raise e)
                  | Ok (bookings_db', session', response) =>
                      let session' :=
                        CS.append_history (assistant, response) session' in
                      (mkWorld (services_db w) bookings_db'
                         (dict_set session_id session' (sessions_db w)),
                       Ok (response, CS.state session'))
                  end).
  { exact (@send_message_found env w session_id message session Hid Hget). }
  rewrite Hsm. split.
  - pose proof (@terminal_turn_state env (services_db w) (bookings_db w) s1
                  (strip message) Hterm Hbye Hglob) as Ht.
    destruct (get_response_for_state env (services_db w) (bookings_db w) s1
                (strip message)) as [[[d' s'] reply]|e];
      unfold state_of; simpl; rewrite dict_get_set_same; simpl.
    + now rewrite Ht.
    + reflexivity.
  - intros H1 H2.
    rewrite (@terminal_turn_reply env (services_db w) (bookings_db w) s1
               (strip message) Hterm H1 H2).
    reflexivity.
Qed.

Lemma terminal_state_preserved_witness :
  let session := CS.set_state st_ended (CS.new "s1") in
  let w := mkWorld (services_db Scenario.w0) [] [("s1", session)] in
  state_of (fst (send_message (Scenario.env "-") (text_message "s1" "thank you") w)) "s1"
  = Some (CS.state session).
Proof.
  intros session w.
  refine (proj1 (@terminal_state_preserved (Scenario.env "-") w "s1" "thank you"
                   session eq_refl eq_refl eq_refl _ _)).
  - vm_compute. discriminate.
  - vm_compute. intros [H | H]; discriminate.
Defined.

(** ** Bookings carry a user name *)

Lemma cancel_for_named (session : CS.t) (d : dict Booking.t) :
  Forall named (values d) -> Forall named (values (cancel_for session d)).
Proof.
  unfold values, cancel_for. induction d as [|[k b] r IH]; simpl; intros H.
  - constructor.
  - inversion H; subst. constructor; [| auto].
    destruct (owned_confirmed session b); assumption.
Qed.

Lemma Forall_named_map (d d' : list Booking.t) :
  map Booking.user_name d' = map Booking.user_name d ->
  Forall named d -> Forall named d'.
Proof.
  revert d'. induction d as [|b r IH]; intros [|b' r']; simpl;
    try discriminate; intros Hm H; [constructor |].
  injection Hm as Hb Hr. inversion H; subst.
  constructor; [unfold named in *; congruence | auto].
Qed.

Lemma handle_name_state_captures (services_db : dict Service.t) (session : CS.t)
    (user_input : string) :
  CS.state session = st_name ->
  name_captured (fst (handle_name_state services_db session user_input)).
Proof.
  intros Hst. unfold handle_name_state.
  destruct (extract_name user_input) as [n|]; [destruct (truthy n) |]; simpl;
    unfold name_captured; simpl; try rewrite Hst; discriminate.
Qed.

(** One turn of the dispatcher keeps every booking named and keeps the
    name of every session that is past the name state. *)
Lemma turn_keeps_names (env : Env) (services_db : dict Service.t)
    (bookings_db bookings_db' : dict Booking.t) (session session' : CS.t)
    (user_input reply : string) :
  Forall named (values bookings_db) ->
  name_captured session ->
  get_response_for_state env services_db bookings_db session user_input
  = Ok (bookings_db', session', reply) ->
  Forall named (values bookings_db') /\ name_captured session'.
Proof.
  intros Hb Hs. unfold get_response_for_state.
  destruct (any_in GOODBYE_KEYWORDS (lower user_input)).
  { intros [= <- <- <-]. split; [assumption | intros H; discriminate H]. }
  assert (Hflow :
    match CS.state session with
    | st_greeting => Ok (keep bookings_db (handle_greeting_state session))
    | st_name =>
        Ok (keep bookings_db (handle_name_state services_db session user_input))
    | st_service =>
        Ok (keep bookings_db (handle_service_state services_db session user_input))
    | st_datetime =>
        r <- handle_datetime_state env bookings_db session user_input ;;
        Ok (keep bookings_db r)
    | st_confirmation =>
        handle_confirmation_state env bookings_db session (classify user_input)
    | st_ended => Ok (bookings_db, session, msg_session_ended)
    | st_completed => Ok (bookings_db, session, msg_not_understood)
    end = Ok (bookings_db', session', reply) ->
    Forall named (values bookings_db') /\ name_captured session').
  { destruct (CS.state session) eqn:Hst.
    - intros [= <- <- <-]. split; [assumption | intros H; discriminate H].
    - intros [= <- <- <-]. split; [assumption |].
      now apply handle_name_state_captures.
    - unfold handle_service_state.
      destruct (find_service (values services_db) user_input);
        intros [= <- <- <-]; (split; [assumption |]);
        unfold name_captured in *; simpl; rewrite ?Hst in *; auto.
    - unfold handle_datetime_state, bind.
      destruct (extract_datetime env user_input) as [[date time_slot]|];
        [| discriminate].
      destruct (truthy date && truthy time_slot).
      + destruct (CS.selected_service session) as [svc|]; [| discriminate].
        destruct (mem time_slot (Service.available_slots svc)).
        * destruct (is_slot_available bookings_db (Service.id svc) date time_slot);
            intros [= <- <- <-]; (split; [assumption |]);
            unfold name_captured in *; simpl; rewrite ?Hst in *; auto.
        * intros [= <- <- <-]. split; assumption.
      + intros [= <- <- <-]. split; assumption.
    - unfold handle_confirmation_state.
      assert (Hn : CS.user_name session <> None) by (apply Hs; now rewrite Hst).
      destruct (classify user_input);
        try (intros [= <- <- <-]; split;
             [assumption
             | unfold name_captured in *; simpl; rewrite ?Hst in *; auto]).
      destruct (CS.selected_service session) as [svc|]; [| discriminate].
      intros [= <- <- <-]. split.
      + apply Forall_dict_set; [assumption | exact Hn].
      + intros _. exact Hn.
    - intros [= <- <- <-]. split; assumption.
    - intros [= <- <- <-]. split; assumption. }
  destruct (classify user_input) eqn:Ec; try exact Hflow.
  - (* cancel *)
    pose proof (cancel_loop_fst session bookings_db) as H1.
    destruct (cancel_loop session bookings_db) as [d' c]. simpl in H1. subst d'.
    destruct c; intros [= <- <- <-];
      (split; [now apply cancel_for_named |]); [assumption |].
    intros H; discriminate H.
  - (* update *)
    destruct (update_loop services_db session bookings_db)
      as [[[d' svc]|]|] eqn:Hu; simpl; [| | discriminate].
    + intros [= <- <- <-].
      destruct (update_loop_some _ _ _ Hu) as [[b [Hin Hname]] Hmap].
      split; [eapply Forall_named_map; eassumption |].
      intros _. simpl. rewrite <- Hname.
      exact (proj1 (Forall_forall _ _) Hb b Hin).
    + intros [= <- <- <-]. split; assumption.
  - (* show_bookings *)
    destruct (filter (owned_confirmed session) (values bookings_db)).
    + intros [= <- <- <-]. split; assumption.
    + destruct (booking_lines services_db (t :: l)); simpl; [| discriminate].
      intros [= <- <- <-]. split; assumption.
Qed.

Lemma step_keeps_names (w : World) (c : Env * Call) :
  names_ok w -> names_ok (step w c).
Proof.
  intros [Hb Hs]. destruct c as [env [|body]]; simpl.
  - split; [assumption |]. simpl.
    apply Forall_dict_set; [assumption | intros H; discriminate H].
  - destruct (send_message_cases env body w)
      as [[e ->] | [session_id [session [text [_ [Hget ->]]]]]];
      [split; assumption |].
    unfold serve_turn.
    assert (Hsess : name_captured session).
    { exact (proj1 (Forall_forall _ _) Hs session (dict_get_In _ _ Hget)). }
    set (s1 := CS.append_history (user, text) session).
    assert (Hs1 : name_captured s1) by exact Hsess.
    destruct (get_response_for_state env (services_db w) (bookings_db w) s1
                text) as [[[d' s'] reply]|e] eqn:Hr; simpl.
    + destruct (@turn_keeps_names _ _ _ _ _ _ _ _ Hb Hs1 Hr) as [Hb' Hs'].
      split; [assumption |]. simpl.
      apply Forall_dict_set; [assumption | exact Hs'].
    + split; [assumption |]. simpl.
      apply Forall_dict_set; assumption.
Qed.

Lemma run_keeps_names (calls : list (Env * Call)) (w : World) :
  names_ok w -> names_ok (run w calls).
Proof.
  revert w. induction calls as [|c calls IH]; intros w H; simpl.
  - exact H.
  - apply IH. now apply step_keeps_names.
Qed.

(** C10: after any sequence of start-session and send-message calls on the
    freshly loaded stores, every booking in the store has a user name, and
    every session that is in the service, datetime, confirmation or
    completed state has one too. *)
Theorem bookings_always_named (u1 u2 u3 : string) (calls : list (Env * Call)) :
  let w := run (initial_world u1 u2 u3) calls in
  Forall (fun b => Booking.user_name b <> None) (values (bookings_db w))
  /\ Forall name_captured (values (sessions_db w)).
Proof.
  apply (run_keeps_names calls (w := initial_world u1 u2 u3)).
  split; constructor.
Qed.

(** ** Slot exclusivity and confirmation *)

(** In the confirmation state a confirm message always stores a booking:
    the handler does not look at the ledger. *)
Lemma confirm_never_checks_slot (env : Env) (services_db : dict Service.t)
    (bookings_db : dict Booking.t) (session : CS.t) (svc : Service.t)
    (user_input : string) :
  CS.state session = st_confirmation ->
  CS.selected_service session = Some svc ->
  says_goodbye user_input = false ->
  classify user_input = i_confirm ->
  let booking :=
    Booking.mk (uuid4 env) (CS.user_name session) (Service.id svc)
      (CS.selected_date session) (CS.selected_time session) confirmed in
  get_response_for_state env services_db bookings_db session user_input
  = Ok (dict_set (uuid4 env) booking bookings_db,
        CS.set_state st_completed session,
        msg_confirmed booking session svc).
Proof.
  intros Hst Hsvc Hbye Hc booking.
  unfold get_response_for_state. fold (says_goodbye user_input).
  rewrite Hbye, Hc. cbv iota. rewrite Hst.
  unfold handle_confirmation_state. rewrite Hsvc. reflexivity.
Qed.

(** C1: the invariant is broken by two sessions that are both shown the
    confirmation prompt for the same free slot and then both say yes.  The
    store ends with two confirmed bookings, under different identifiers,
    for the same service, date and time. *)
Theorem double_booking_reachable :
  let w := run Scenario.w0 Scenario.both_confirmed in
  (exists b1 b2,
      values (bookings_db w) = [b1; b2]
      /\ Booking.id b1 <> Booking.id b2
      /\ Booking.status b1 = confirmed
      /\ Booking.status b2 = confirmed
      /\ same_slot b1 b2)
  /\ ~ slot_exclusive (bookings_db w).
Proof.
  intros w.
  assert (Hv : values (bookings_db w)
               = [ Booking.mk "b1" (Some "Alice") "svc-h" (Some "2026-11-03")
                     (Some "09:00 AM") confirmed;
                   Booking.mk "b2" (Some "Bob") "svc-h" (Some "2026-11-03")
                     (Some "09:00 AM") confirmed ]).
  { vm_compute. reflexivity. }
  split.
  - do 2 eexists. split; [exact Hv |].
    repeat split; simpl; try reflexivity. discriminate.
  - intros Hex. unfold slot_exclusive in Hex. rewrite Hv in Hex.
    apply (Hex 0 1 _ _ (ltac:(discriminate)) eq_refl eq_refl eq_refl eq_refl).
    repeat split.
Qed.

(** C2: Bob's session is in the confirmation state for a slot that Alice
    has confirmed in the meantime.  His "yes" is classified confirm, the
    ledger says the slot is taken, and the turn nevertheless stores a second
    confirmed booking and completes the session. *)
Theorem confirm_on_taken_slot_books_again :
  let w := run Scenario.w0 Scenario.both_asked_alice_confirmed in
  let r := send_message (Scenario.env "b2") (text_message "s2" "yes") w in
  state_of w "s2" = Some st_confirmation
  /\ classify "yes" = i_confirm
  /\ is_slot_available (bookings_db w) "svc-h" "2026-11-03" "09:00 AM" = false
  /\ (exists reply, snd r = Ok (reply, st_completed))
  /\ state_of (fst r) "s2" = Some st_completed
  /\ map Booking.status (values (bookings_db w)) = [confirmed]
  /\ map Booking.status (values (bookings_db (fst r))) = [confirmed; confirmed]
  /\ dict_get "b2" (bookings_db (fst r))
     = Ok (Booking.mk "b2" (Some "Bob") "svc-h" (Some "2026-11-03")
             (Some "09:00 AM") confirmed).
Proof.
  vm_compute. repeat split; try reflexivity.
  eexists. reflexivity.
Qed.

(** * Further properties *)

(** ** One turn, case by case *)

Lemma cancel_for_none (session : CS.t) (d : dict Booking.t) :
  mine session d = [] -> cancel_for session d = d.
Proof.
  unfold mine, values, cancel_for.
  induction d as [|[k b] r IH]; simpl; [reflexivity |].
  destruct (owned_confirmed session b); [discriminate |].
  intros H. now rewrite (IH H).
Qed.

Lemma turn_inversion (env : Env) (services_db : dict Service.t)
    (bookings_db bookings_db' : dict Booking.t) (session session' : CS.t)
    (user_input reply : string) :
  get_response_for_state env services_db bookings_db session user_input
  = Ok (bookings_db', session', reply) ->
  Turn env services_db bookings_db session user_input bookings_db' session'.
Proof.
  unfold get_response_for_state. fold (says_goodbye user_input).
  destruct (says_goodbye user_input) eqn:Hbye.
  { intros [= <- <- <-]. now apply turn_goodbye. }
  assert (Hflow :
    match CS.state session with
    | st_greeting => Ok (keep bookings_db (handle_greeting_state session))
    | st_name =>
        Ok (keep bookings_db (handle_name_state services_db session user_input))
    | st_service =>
        Ok (keep bookings_db (handle_service_state services_db session user_input))
    | st_datetime =>
        r <- handle_datetime_state env bookings_db session user_input ;;
        Ok (keep bookings_db r)
    | st_confirmation =>
        handle_confirmation_state env bookings_db session (classify user_input)
    | st_ended => Ok (bookings_db, session, msg_session_ended)
    | st_completed => Ok (bookings_db, session, msg_not_understood)
    end = Ok (bookings_db', session', reply) ->
    Turn env services_db bookings_db session user_input bookings_db' session').
  { destruct (CS.state session) eqn:Hst.
    - intros [= <- <- <-]. now apply turn_greeting.
    - unfold handle_name_state.
      destruct (extract_name user_input) as [n|] eqn:Hn;
        [destruct (truthy n) |]; intros [= <- <- <-];
        solve [apply turn_stay | now apply turn_name].
    - unfold handle_service_state.
      destruct (find_service (values services_db) user_input) eqn:Hf;
        intros [= <- <- <-]; solve [apply turn_stay | now apply turn_service].
    - unfold handle_datetime_state, bind.
      destruct (extract_datetime env user_input) as [[date time_slot]|] eqn:Hx;
        [| discriminate].
      destruct (truthy date && truthy time_slot).
      + destruct (CS.selected_service session) as [svc|] eqn:Hsvc; [| discriminate].
        destruct (mem time_slot (Service.available_slots svc)) eqn:Hmem.
        * destruct (is_slot_available bookings_db (Service.id svc) date time_slot)
            eqn:Hfree; intros [= <- <- <-];
            solve [apply turn_stay | eapply turn_datetime; eassumption].
        * intros [= <- <- <-]. apply turn_stay.
      + intros [= <- <- <-]. apply turn_stay.
    - unfold handle_confirmation_state.
      destruct (classify user_input) eqn:Hc;
        try (intros [= <- <- <-]; solve [apply turn_stay | now apply turn_deny]).
      destruct (CS.selected_service session) as [svc|] eqn:Hsvc; [| discriminate].
      intros [= <- <- <-]. now apply turn_confirm.
    - intros [= <- <- <-]. apply turn_stay.
    - intros [= <- <- <-]. apply turn_stay. }
  destruct (classify user_input) eqn:Ec; try exact Hflow.
  - pose proof (cancel_loop_fst session bookings_db) as H1.
    pose proof (cancel_loop_snd session bookings_db) as H2.
    destruct (cancel_loop session bookings_db) as [d' c]. simpl in H1, H2.
    subst d'. destruct c as [|b c]; intros [= <- <- <-].
    + rewrite cancel_for_none; [apply turn_stay |].
      destruct (mine session bookings_db); [reflexivity | discriminate].
    + apply turn_cancel; auto.
      destruct (mine session bookings_db); [discriminate | discriminate].
  - destruct (update_loop services_db session bookings_db)
      as [[[d' svc]|]|] eqn:Hu; simpl; [| | discriminate];
      intros [= <- <- <-]; solve [apply turn_stay | now apply turn_update].
  - destruct (filter (owned_confirmed session) (values bookings_db)).
    + intros [= <- <- <-]. apply turn_stay.
    + destruct (booking_lines services_db (t :: l)); simpl; [| discriminate].
      intros [= <- <- <-]. apply turn_stay.
Qed.

(** ** The state machine *)

(** X1: a turn that returns changes the state only along the edges of
    the dialogue: into name only from greeting, into service only from name
    or confirmation, into confirmation only from datetime, into completed
    only from confirmation (or it stays where it is); ended, greeting and
    datetime can be entered from any state. *)
Theorem turn_follows_edges (env : Env) (services_db : dict Service.t)
    (bookings_db bookings_db' : dict Booking.t) (session session' : CS.t)
    (user_input reply : string) :
  get_response_for_state env services_db bookings_db session user_input
  = Ok (bookings_db', session', reply) ->
  edge (CS.state session) (CS.state session') = true.
Proof.
  intros H. apply turn_inversion in H.
  inversion H; subst; simpl;
    repeat match goal with
           | Hs : CS.state _ = _ |- _ => rewrite Hs; clear Hs
           end;
    try reflexivity;
    match goal with
    | |- edge ?st _ = true => destruct st; reflexivity
    end.
Qed.

Lemma turn_follows_edges_witness :
  edge (CS.state (CS.new "s1")) (CS.state (CS.set_state st_name (CS.new "s1")))
  = true.
Proof.
  apply (@turn_follows_edges (Scenario.env "-") (services_db Scenario.w0) [] []
           (CS.new "s1") (CS.set_state st_name (CS.new "s1")) "Hi" msg_welcome).
  reflexivity.
Defined.

(** ** The ledger *)

Lemma slot_free_spec (bs : list Booking.t) (service_id date time : string) :
  slot_free bs service_id date time = false
  <-> exists b, In b bs /\ occupies service_id date time b.
Proof.
  induction bs as [|b r IH]; simpl.
  - split; [discriminate | intros [b [[] _]]].
  - destruct (String.eqb (Booking.service_id b) service_id
              && opt_eqb (Booking.date b) (Some date)
              && opt_eqb (Booking.time b) (Some time)
              && is_confirmed b) eqn:E.
    + split; [intros _ | reflexivity].
      exists b. split; [now left |].
      repeat (apply andb_true_iff in E; destruct E as [E ?]).
      unfold occupies. repeat split.
      * now apply String.eqb_eq.
      * now apply opt_eqb_eq.
      * now apply opt_eqb_eq.
      * unfold is_confirmed in *. destruct (Booking.status b); [reflexivity | discriminate].
    + rewrite IH. split.
      * intros [b' [Hin Hocc]]. exists b'. split; [now right | assumption].
      * intros [b' [[<- | Hin] Hocc]]; [| exists b'; split; assumption].
        exfalso. destruct Hocc as [H1 [H2 [H3 H4]]].
        unfold is_confirmed in E.
        rewrite H1, H2, H3, H4, String.eqb_refl in E. simpl in E.
        rewrite !String.eqb_refl in E. discriminate.
Qed.

(** X2: [is_slot_available] answers false exactly when the store holds a
    confirmed booking with that service, date and time; cancelled bookings
    and bookings that differ in one of the three do not block a slot. *)
Theorem is_slot_available_spec (bookings_db : dict Booking.t)
    (service_id date time : string) :
  is_slot_available bookings_db service_id date time = false
  <-> exists b, In b (values bookings_db) /\ occupies service_id date time b.
Proof. apply slot_free_spec. Qed.

Lemma cancel_for_only_cancels (session : CS.t) (d : dict Booking.t) :
  only_cancels d (cancel_for session d).
Proof.
  unfold only_cancels, cancel_for.
  induction d as [|[k b] r IH]; simpl; constructor; [| exact IH].
  simpl. split; [reflexivity |].
  destruct (owned_confirmed session b) eqn:E; [right | now left].
  split; [| reflexivity].
  unfold owned_confirmed, is_confirmed in E. apply andb_true_iff in E.
  destruct (Booking.status b); [reflexivity | destruct E; discriminate].
Qed.

Lemma only_cancels_refl (d : dict Booking.t) : only_cancels d d.
Proof.
  unfold only_cancels. induction d; constructor; auto.
Qed.

Lemma update_loop_only_cancels (services_db : dict Service.t) (session : CS.t)
    (d d' : dict Booking.t) (svc : Service.t) :
  update_loop services_db session d = Ok (Some (d', svc)) -> only_cancels d d'.
Proof.
  revert d'. induction d as [|[k b] r IH]; simpl; intros d'; [discriminate |].
  destruct (owned_confirmed session b) eqn:E.
  - destruct (dict_get (Booking.service_id b) services_db); simpl; [| discriminate].
    intros [= <- <-]. constructor; [| apply only_cancels_refl].
    simpl. split; [reflexivity | right]. split; [| reflexivity].
    unfold owned_confirmed, is_confirmed in E. apply andb_true_iff in E.
    destruct (Booking.status b); [reflexivity | destruct E; discriminate].
  - destruct (update_loop services_db session r) as [[[r' svc']|]|]; simpl;
      try discriminate.
    intros [= <- <-]. constructor; [| now apply IH].
    simpl. split; [reflexivity | now left].
Qed.

Lemma turn_ledger_cases (env : Env) (services_db : dict Service.t)
    (bookings_db bookings_db' : dict Booking.t) (session session' : CS.t)
    (user_input : string) :
  Turn env services_db bookings_db session user_input bookings_db' session' ->
  only_cancels bookings_db bookings_db'
  \/ (CS.state session = st_confirmation
      /\ classify user_input = i_confirm
      /\ CS.state session' = st_completed
      /\ exists svc,
          CS.selected_service session = Some svc
          /\ bookings_db'
             = dict_set (uuid4 env)
                 (Booking.mk (uuid4 env) (CS.user_name session) (Service.id svc)
                    (CS.selected_date session) (CS.selected_time session)
                    confirmed)
                 bookings_db).
Proof.
  intros H.
  inversion H; subst;
    try (left; solve [apply only_cancels_refl | apply cancel_for_only_cancels
                     | eapply update_loop_only_cancels; eassumption]).
  right. repeat split; auto. exists svc. split; auto.
Qed.

(** X3: a turn that returns either keeps every entry of the bookings
    store in place, changing at most some statuses from confirmed to
    cancelled (nothing is deleted, nothing is un-cancelled), or it is a
    confirm message in the confirmation state, which writes one confirmed
    booking built from the session under the identifier drawn for it and
    completes the session.  No other turn creates a booking. *)
Theorem turn_touches_ledger_two_ways (env : Env) (services_db : dict Service.t)
    (bookings_db bookings_db' : dict Booking.t) (session session' : CS.t)
    (user_input reply : string) :
  get_response_for_state env services_db bookings_db session user_input
  = Ok (bookings_db', session', reply) ->
  only_cancels bookings_db bookings_db'
  \/ (CS.state session = st_confirmation
      /\ classify user_input = i_confirm
      /\ CS.state session' = st_completed
      /\ exists svc,
          CS.selected_service session = Some svc
          /\ bookings_db'
             = dict_set (uuid4 env)
                 (Booking.mk (uuid4 env) (CS.user_name session) (Service.id svc)
                    (CS.selected_date session) (CS.selected_time session)
                    confirmed)
                 bookings_db).
Proof.
  intros H.
  exact (@turn_ledger_cases env services_db bookings_db bookings_db' session
           session' user_input (@turn_inversion _ _ _ _ _ _ _ _ H)).
Qed.

Lemma turn_touches_ledger_two_ways_witness :
  let session := CS.set_user_name (Some "Alice") (CS.new "s1") in
  let bookings_db :=
    [("b1", Booking.mk "b1" (Some "Alice") "svc-h" (Some "2026-11-03")
              (Some "09:00 AM") confirmed)] in
  only_cancels bookings_db (cancel_for session bookings_db)
  \/ (CS.state session = st_confirmation
      /\ classify "cancel" = i_confirm
      /\ CS.state (CS.set_state st_greeting session) = st_completed
      /\ exists svc,
          CS.selected_service session = Some svc
          /\ cancel_for session bookings_db
             = dict_set (uuid4 (Scenario.env "-"))
                 (Booking.mk (uuid4 (Scenario.env "-")) (CS.user_name session)
                    (Service.id svc) (CS.selected_date session)
                    (CS.selected_time session) confirmed)
                 bookings_db).
Proof.
  intros session bookings_db.
  apply (@turn_touches_ledger_two_ways (Scenario.env "-")
           (services_db Scenario.w0) bookings_db (cancel_for session bookings_db)
           session (CS.set_state st_greeting session) "cancel" msg_cancelled).
  reflexivity.
Defined.

(** X4: the confirmation state is entered only by the date and time
    handler, and only with a slot that is one of the selected service's
    slots and that [is_slot_available] reports free in the store at that
    turn; the date and time of that slot are what the session records, and
    the store is not touched. *)
Theorem confirmation_entered_with_free_slot (env : Env)
    (services_db : dict Service.t) (bookings_db bookings_db' : dict Booking.t)
    (session session' : CS.t) (user_input reply : string) :
  get_response_for_state env services_db bookings_db session user_input
  = Ok (bookings_db', session', reply) ->
  CS.state session <> st_confirmation ->
  CS.state session' = st_confirmation ->
  CS.state session = st_datetime
  /\ bookings_db' = bookings_db
  /\ exists svc date time_slot,
      CS.selected_service session' = Some svc
      /\ CS.selected_date session' = Some date
      /\ CS.selected_time session' = Some time_slot
      /\ extract_datetime env user_input = Ok (date, time_slot)
      /\ mem time_slot (Service.available_slots svc) = true
      /\ is_slot_available bookings_db (Service.id svc) date time_slot = true.
Proof.
  intros H Hbefore Hafter. apply turn_inversion in H.
  inversion H; subst; simpl in Hafter; try discriminate Hafter;
    try contradiction.
  repeat split; auto. exists svc, date, time_slot. simpl. repeat split; auto.
Qed.

Lemma confirmation_entered_with_free_slot_witness :
  let session :=
    CS.set_state st_datetime
      (CS.set_selected_service (Some (haircut "svc-h")) (CS.new "s1")) in
  CS.state session = st_datetime
  /\ @nil (string * Booking.t) = []
  /\ exists svc date time_slot,
      CS.selected_service (with_slot "2026-11-03" "09:00 AM" session) = Some svc
      /\ CS.selected_date (with_slot "2026-11-03" "09:00 AM" session) = Some date
      /\ CS.selected_time (with_slot "2026-11-03" "09:00 AM" session)
         = Some time_slot
      /\ extract_datetime (Scenario.env "-") "at 9 am" = Ok (date, time_slot)
      /\ mem time_slot (Service.available_slots svc) = true
      /\ is_slot_available [] (Service.id svc) date time_slot = true.
Proof.
  intros session.
  apply (@confirmation_entered_with_free_slot (Scenario.env "-")
           (services_db Scenario.w0) [] [] session
           (with_slot "2026-11-03" "09:00 AM" session) "at 9 am"
           (msg_summary session (haircut "svc-h") "2026-11-03" "09:00 AM")).
  - reflexivity.
  - discriminate.
  - reflexivity.
Defined.

(** ** Dictionaries: lookup after update *)

Lemma dict_get_set_other (V : Type) (k k' : string) (v : V) (d : dict V) :
  k' <> k -> dict_get k' (dict_set k v d) = dict_get k' d.
Proof.
  intros Hne. induction d as [|[k0 v0] r IH]; simpl.
  - apply String.eqb_neq in Hne. now rewrite Hne.
  - destruct (String.eqb k k0) eqn:E; simpl.
    + apply String.eqb_eq in E. subst k0.
      apply String.eqb_neq in Hne. now rewrite Hne.
    + now rewrite IH.
Qed.

Lemma dict_set_keys (V : Type) (k : string) (v : V) (d : dict V) :
  dict_has k d = true -> map fst (dict_set k v d) = map fst d.
Proof.
  induction d as [|[k0 v0] r IH]; simpl; [discriminate |].
  destruct (String.eqb k k0) eqn:E; simpl; [reflexivity |].
  intros H. now rewrite IH.
Qed.

Lemma dict_set_new_key (V : Type) (k : string) (v : V) (d : dict V) :
  dict_has k d = false -> dict_set k v d = (d ++ [(k, v)])%list.
Proof.
  induction d as [|[k0 v0] r IH]; simpl; [reflexivity |].
  destruct (String.eqb k k0) eqn:E; simpl; [discriminate |].
  intros H. now rewrite IH.
Qed.

Lemma dict_set_set (V : Type) (k : string) (v v' : V) (d : dict V) :
  dict_set k v' (dict_set k v d) = dict_set k v' d.
Proof.
  induction d as [|[k0 v0] r IH]; simpl.
  - now rewrite String.eqb_refl.
  - destruct (String.eqb k k0) eqn:E; simpl; rewrite E; [reflexivity |].
    now rewrite IH.
Qed.

(** ** The session routes *)

Lemma turn_keeps_history (env : Env) (services_db : dict Service.t)
    (bookings_db bookings_db' : dict Booking.t) (session session' : CS.t)
    (user_input : string) :
  Turn env services_db bookings_db session user_input bookings_db' session' ->
  CS.conversation_history session' = CS.conversation_history session
  /\ CS.id session' = CS.id session.
Proof. intros H. inversion H; subst; split; reflexivity. Qed.

Lemma find_session_none (v : json) (w : World) :
  no_session v w = true ->
  find_session v w = Raise (HTTPException 404 "Session not found").
Proof.
  unfold find_session, no_session.
  destruct v as [|b|z|nz|sid|[|x items]|[|f fields]]; simpl;
    try discriminate; try reflexivity.
  - destruct b; reflexivity.
  - destruct (negb (Z.eqb z 0)); reflexivity.
  - destruct nz; reflexivity.
  - destruct (truthy sid); simpl; [| reflexivity]. now intros ->.
Qed.

Lemma find_session_unhashable (v : json) (w : World) :
  unhashable v = true -> find_session v w = Raise TypeError.
Proof.
  destruct v as [|b|z|nz|sid|[|x items]|[|f fields]]; simpl;
    try discriminate; reflexivity.
Qed.

(** What [data.get("message", "")] yields on the members of an object. *)
Lemma message_ok_strip (fields : list (string * json)) :
  if message_ok fields
  then exists text,
      json_strip (match obj_get "message" fields with
                  | Some v => v
                  | None => JStr EmptyString
                  end) = Ok text
  else json_strip (match obj_get "message" fields with
                   | Some v => v
                   | None => JStr EmptyString
                   end) = Raise AttributeError.
Proof.
  unfold message_ok.
  destruct (obj_get "message" fields) as [[|b|z|nz|m|items|fs]|]; simpl; eauto.
Qed.

(** The text route on an object: the message first, then the session. *)
Lemma send_message_object (env : Env) (fields : list (string * json))
    (w : World) :
  send_message env (Ok (JObj fields)) w
  = match json_strip (match obj_get "message" fields with
                      | Some v => v
                      | None => JStr EmptyString
                      end) with
    | Raise e => (w, Raise e)
    | Ok message =>
        match find_session (session_id_of fields) w with
        | Raise e => (w, Raise e)
        | Ok (sid, session) => serve_turn env sid session message w
        end
    end.
Proof.
  unfold send_message, bind, json_get, session_id_of.
  destruct (json_strip _); [| reflexivity].
  destruct (find_session _ w) as [[sid session]|]; reflexivity.
Qed.

(** X5: a request that names no session or is ill-typed is refused and
    writes nothing, on the text route and on the voice route.  What the
    decoder raised is passed on.  A body that is not an object raises
    [AttributeError].  On the text route a message that is not a string
    raises [AttributeError] before the session is looked up, so even for
    an unknown session.  Otherwise an identifier that is absent, falsy, an
    unknown string, a number or a boolean gives the 404 "Session not
    found", and a non-empty list or object raises [TypeError]. *)
Theorem bad_requests_write_nothing (env : Env) (w : World)
    (recognized : res string) :
  (forall e,
      send_message env (Raise e) w = (w, Raise e)
      /\ process_voice_input env recognized (Raise e) w = (w, Raise e))
  /\ (forall data,
        is_object data = false ->
        send_message env (Ok data) w = (w, Raise AttributeError)
        /\ process_voice_input env recognized (Ok data) w
           = (w, Raise AttributeError))
  /\ (forall fields,
        message_ok fields = false ->
        send_message env (Ok (JObj fields)) w = (w, Raise AttributeError))
  /\ (forall fields,
        no_session (session_id_of fields) w = true ->
        process_voice_input env recognized (Ok (JObj fields)) w
        = (w, Raise (HTTPException 404 "Session not found"))
        /\ (message_ok fields = true ->
            send_message env (Ok (JObj fields)) w
            = (w, Raise (HTTPException 404 "Session not found"))))
  /\ (forall fields,
        unhashable (session_id_of fields) = true ->
        process_voice_input env recognized (Ok (JObj fields)) w
        = (w, Raise TypeError)
        /\ (message_ok fields = true ->
            send_message env (Ok (JObj fields)) w = (w, Raise TypeError))).
Proof.
  split; [intros e; split; reflexivity |].
  split.
  { intros data H. destruct data; try discriminate H; split; reflexivity. }
  split.
  { intros fields H. pose proof (message_ok_strip fields) as Hm.
    rewrite H in Hm. now rewrite send_message_object, Hm. }
  split.
  - intros fields H. split.
    + unfold process_voice_input, bind, json_get.
      fold (session_id_of fields). now rewrite (find_session_none _ _ H).
    + intros Hok. pose proof (message_ok_strip fields) as Hm.
      rewrite Hok in Hm. destruct Hm as [text Hm].
      now rewrite send_message_object, Hm, (find_session_none _ _ H).
  - intros fields H. split.
    + unfold process_voice_input, bind, json_get.
      fold (session_id_of fields). now rewrite (find_session_unhashable _ w H).
    + intros Hok. pose proof (message_ok_strip fields) as Hm.
      rewrite Hok in Hm. destruct Hm as [text Hm].
      now rewrite send_message_object, Hm, (find_session_unhashable _ w H).
Qed.

Lemma bad_requests_write_nothing_witness :
  send_message (Scenario.env "-")
    (Ok (JObj [("session_id", JStr "nobody"); ("message", JInt 5)])) Scenario.w0
  = (Scenario.w0, Raise AttributeError).
Proof.
  apply (proj1 (proj2 (proj2 (@bad_requests_write_nothing (Scenario.env "-")
                                Scenario.w0 (Ok "hi"))))).
  reflexivity.
Defined.

(** X6: a message to an existing session appends to that session's
    history the trimmed message and then, when the turn returns, the reply
    (only the message when the turn raises); the earlier entries are kept,
    the session stays under its identifier, every other session is
    untouched and so is the catalogue. *)
Theorem send_message_logs_the_turn (env : Env) (w : World)
    (session_id message : string) (session : CS.t) :
  truthy session_id = true ->
  dict_get session_id (sessions_db w) = Ok session ->
  let w' := fst (send_message env (text_message session_id message) w) in
  let r := snd (send_message env (text_message session_id message) w) in
  (exists session',
      dict_get session_id (sessions_db w') = Ok session'
      /\ CS.conversation_history session'
         = (CS.conversation_history session
              ++ (user, strip message)
                 :: match r with
                    | Ok (reply, _) => [(assistant, reply)]
                    | Raise _ => []
                    end)%list)
  /\ (forall k, k <> session_id ->
                dict_get k (sessions_db w') = dict_get k (sessions_db w))
  /\ map fst (sessions_db w') = map fst (sessions_db w)
  /\ services_db w' = services_db w.
Proof.
  intros Hid Hget w' r. subst w' r.
  rewrite (@send_message_found env w session_id message session Hid Hget).
  cbv zeta.
  set (s1 := CS.append_history (user, strip message) session).
  destruct (get_response_for_state env (services_db w) (bookings_db w) s1
              (strip message)) as [[[d' s'] reply]|e] eqn:Hr; simpl.
  - destruct (@turn_keeps_history _ _ _ _ _ _ _
                (@turn_inversion _ _ _ _ _ _ _ _ Hr)) as [Hh _].
    repeat split.
    + eexists. split; [apply dict_get_set_same |]. simpl. rewrite Hh. simpl.
      rewrite <- app_assoc. reflexivity.
    + intros k Hk. now apply dict_get_set_other.
    + apply dict_set_keys. eapply dict_get_has; eassumption.
  - repeat split.
    + eexists. split; [apply dict_get_set_same |]. reflexivity.
    + intros k Hk. now apply dict_get_set_other.
    + apply dict_set_keys. eapply dict_get_has; eassumption.
Qed.

Lemma send_message_logs_the_turn_witness :
  let w := mkWorld (services_db Scenario.w0) [] [("s1", CS.new "s1")] in
  let w' := fst (send_message (Scenario.env "-") (text_message "s1" " Hi ") w) in
  let r := snd (send_message (Scenario.env "-") (text_message "s1" " Hi ") w) in
  (exists session',
      dict_get "s1" (sessions_db w') = Ok session'
      /\ CS.conversation_history session'
         = (CS.conversation_history (CS.new "s1")
              ++ (user, strip " Hi ")
                 :: match r with
                    | Ok (reply, _) => [(assistant, reply)]
                    | Raise _ => []
                    end)%list)
  /\ (forall k, k <> "s1" ->
                dict_get k (sessions_db w') = dict_get k (sessions_db w))
  /\ map fst (sessions_db w') = map fst (sessions_db w)
  /\ services_db w' = services_db w.
Proof.
  intros w.
  apply (@send_message_logs_the_turn (Scenario.env "-") w "s1" " Hi "
           (CS.new "s1")); reflexivity.
Defined.

(** X7: [start_session] stores a new session in the greeting state, with
    no name and no selection, under the identifier it returns, and touches
    no other session, no booking and no service.  The first message to
    that session, when it holds no goodbye keyword and is not classified
    as a global intent, is answered with the welcome prompt whatever it
    says, and the session moves to the name state. *)
Theorem start_session_then_first_message (env env' : Env) (w : World)
    (message : string) :
  truthy (uuid4 env) = true ->
  says_goodbye (strip message) = false ->
  is_global (classify (strip message)) = false ->
  let w1 := fst (start_session env w) in
  fst (snd (start_session env w)) = uuid4 env
  /\ dict_get (uuid4 env) (sessions_db w1) = Ok (CS.new (uuid4 env))
  /\ (forall k, k <> uuid4 env ->
                dict_get k (sessions_db w1) = dict_get k (sessions_db w))
  /\ bookings_db w1 = bookings_db w
  /\ services_db w1 = services_db w
  /\ snd (send_message env' (text_message (uuid4 env) message) w1) = Ok (msg_welcome, st_name)
  /\ bookings_db (fst (send_message env' (text_message (uuid4 env) message) w1)) = bookings_db w.
Proof.
  intros Hid Hbye Hglob w1.
  assert (Hget : dict_get (uuid4 env) (sessions_db w1) = Ok (CS.new (uuid4 env))).
  { apply dict_get_set_same. }
  repeat split; try assumption.
  - intros k Hk. now apply dict_get_set_other.
  - rewrite (@send_message_found env' w1 (uuid4 env) message _ Hid Hget).
    cbv zeta. unfold get_response_for_state.
    fold (says_goodbye (strip message)). rewrite Hbye.
    destruct (classify (strip message)); try discriminate Hglob; reflexivity.
  - rewrite (@send_message_found env' w1 (uuid4 env) message _ Hid Hget).
    cbv zeta. unfold get_response_for_state.
    fold (says_goodbye (strip message)). rewrite Hbye.
    destruct (classify (strip message)); try discriminate Hglob; reflexivity.
Qed.

Lemma start_session_then_first_message_witness :
  snd (send_message (Scenario.env "-") (text_message "s9" "good morning")
         (fst (start_session (Scenario.env "s9") Scenario.w0)))
  = Ok (msg_welcome, st_name).
Proof.
  apply (@start_session_then_first_message (Scenario.env "s9") (Scenario.env "-")
           Scenario.w0 "good morning"); reflexivity.
Defined.

(** X8: a message with a goodbye keyword ends an existing session
    whatever its state and whatever else the message says: the reply is
    the farewell, the state is ended, the bookings store is untouched (a
    confirmation in progress books nothing), and saying goodbye again
    gives the same answer. *)
Theorem goodbye_ends_any_session (env env' : Env) (w : World)
    (session_id message : string) (session : CS.t) :
  truthy session_id = true ->
  dict_get session_id (sessions_db w) = Ok session ->
  says_goodbye (strip message) = true ->
  let w' := fst (send_message env (text_message session_id message) w) in
  snd (send_message env (text_message session_id message) w) = Ok (msg_goodbye, st_ended)
  /\ bookings_db w' = bookings_db w
  /\ state_of w' session_id = Some st_ended
  /\ snd (send_message env' (text_message session_id message) w') = Ok (msg_goodbye, st_ended)
  /\ bookings_db (fst (send_message env' (text_message session_id message) w')) = bookings_db w.
Proof.
  intros Hid Hget Hbye w'.
  assert (Hstep : forall e v s,
             dict_get session_id (sessions_db v) = Ok s ->
             snd (send_message e (text_message session_id message) v) = Ok (msg_goodbye, st_ended)
             /\ bookings_db (fst (send_message e (text_message session_id message) v))
                = bookings_db v
             /\ exists s', dict_get session_id
                             (sessions_db (fst (send_message e (text_message session_id message) v)))
                           = Ok s'
                           /\ CS.state s' = st_ended).
  { intros e v s Hs.
    rewrite (@send_message_found e v session_id message s Hid Hs). cbv zeta.
    unfold get_response_for_state. fold (says_goodbye (strip message)).
    rewrite Hbye. simpl. repeat split.
    eexists. split; [apply dict_get_set_same | reflexivity]. }
  subst w'.
  destruct (Hstep env w session Hget) as [H1 [H2 [s' [H3 H4]]]].
  destruct (Hstep env' _ s' H3) as [H5 [H6 _]].
  repeat split; try assumption.
  - unfold state_of. now rewrite H3, H4.
  - congruence.
Qed.

Lemma goodbye_ends_any_session_witness :
  let w := run Scenario.w0 (Scenario.to_confirmation "s1" "my name is Alice") in
  snd (send_message (Scenario.env "b1") (text_message "s1" "yes, bye") w)
  = Ok (msg_goodbye, st_ended)
  /\ bookings_db (fst (send_message (Scenario.env "b1") (text_message "s1" "yes, bye") w))
     = bookings_db w.
Proof.
  intros w.
  assert (Hget : exists s, dict_get "s1" (sessions_db w) = Ok s).
  { apply dict_has_get_ok. vm_compute. reflexivity. }
  destruct Hget as [s Hs].
  destruct (@goodbye_ends_any_session (Scenario.env "b1") (Scenario.env "-") w
              "s1" "yes, bye" s eq_refl Hs eq_refl) as [H1 [H2 _]].
  split; assumption.
Defined.

(** ** The booking and voice routes *)

(** X9: [cancel_booking] answers 404 and changes nothing for an unknown
    identifier; for a stored one it sets that booking's status to
    cancelled, keeps its other fields, its key and its place, leaves every
    other booking, every session and the catalogue as they were (the owner
    is not checked and no session state is reset), and doing it a second
    time changes nothing more. *)
Theorem cancel_booking_spec (booking_id : string) (w : World) :
  (dict_has booking_id (bookings_db w) = false ->
   cancel_booking booking_id w
   = (w, Raise (HTTPException 404 "Booking not found")))
  /\ (forall b,
        dict_get booking_id (bookings_db w) = Ok b ->
        let w' := fst (cancel_booking booking_id w) in
        snd (cancel_booking booking_id w) = Ok "Booking cancelled successfully"
        /\ dict_get booking_id (bookings_db w')
           = Ok (Booking.set_status cancelled b)
        /\ (forall k, k <> booking_id ->
                      dict_get k (bookings_db w') = dict_get k (bookings_db w))
        /\ map fst (bookings_db w') = map fst (bookings_db w)
        /\ sessions_db w' = sessions_db w
        /\ services_db w' = services_db w
        /\ fst (cancel_booking booking_id w') = w').
Proof.
  unfold cancel_booking. split.
  - intros H. rewrite H. reflexivity.
  - intros b Hget. rewrite (dict_get_has _ _ Hget), Hget. simpl.
    repeat split.
    + apply dict_get_set_same.
    + intros k Hk. now apply dict_get_set_other.
    + apply dict_set_keys. eapply dict_get_has; eassumption.
    + rewrite (dict_get_has _ _ (dict_get_set_same booking_id _ (bookings_db w))).
      rewrite dict_get_set_same. simpl. rewrite dict_set_set. reflexivity.
Qed.

Lemma cancel_booking_spec_witness :
  cancel_booking "b7" Scenario.w0
  = (Scenario.w0, Raise (HTTPException 404 "Booking not found"))
  /\ dict_get "b1"
       (bookings_db
          (fst (cancel_booking "b1" (run Scenario.w0 Scenario.alice_books))))
     = Ok (Booking.set_status cancelled
             (Booking.mk "b1" (Some "Alice") "svc-h" (Some "2026-11-03")
                (Some "09:00 AM") confirmed)).
Proof.
  split.
  - apply (proj1 (cancel_booking_spec "b7" Scenario.w0)). reflexivity.
  - refine (proj1 (proj2 (proj2 (cancel_booking_spec "b1"
              (run Scenario.w0 Scenario.alice_books)) _ _))).
    vm_compute. reflexivity.
Defined.

(** The voice route on a session that exists. *)
Lemma process_voice_input_found (env : Env) (w : World) (session_id : string)
    (session : CS.t) (recognized : res string) :
  truthy session_id = true ->
  dict_get session_id (sessions_db w) = Ok session ->
  process_voice_input env recognized (voice_request session_id) w
  = match CS.state session with
    | st_ended => (w, Ok (voice_ended msg_voice_ended (CS.state session)))
    | _ =>
        match listen_for_speech env recognized with
        | Raise e => (w, Raise e)
        | Ok (Some speech_text) =>
            if truthy speech_text then
              match serve_turn env session_id session speech_text w with
              | (w', Ok (response, state)) =>
                  (w', Ok (voice_heard speech_text response state))
              | (w', Raise e) => (w', Raise e)
              end
            else (w, Ok voice_not_heard)
        | Ok None => (w, Ok voice_not_heard)
        end
    end.
Proof.
  intros Hid Hget. unfold process_voice_input, voice_request, bind.
  change (json_get (JObj [("session_id", JStr session_id)]) "session_id" JNull)
    with (Ok (JStr session_id)).
  cbv iota beta.
  rewrite (@find_session_found w session_id session Hid Hget). reflexivity.
Qed.

(** X10: the voice route leaves an ended session alone: it answers that
    the session has ended without listening and without running the
    dispatcher, so nothing is written.  When nothing was recognised (the
    recogniser raised, whatever the handler's [print] then does) or the
    text is empty, it changes nothing either.  On a session that is not
    ended, a recognised text acts as the text route does on its lower-case
    form, provided that form has no surrounding white space. *)
Theorem voice_route_behaviour (env : Env) (w : World) (session_id : string)
    (session : CS.t) (recognized : res string) :
  truthy session_id = true ->
  dict_get session_id (sessions_db w) = Ok session ->
  (CS.state session = st_ended ->
   process_voice_input env recognized (voice_request session_id) w
   = (w, Ok (voice_ended msg_voice_ended st_ended)))
  /\ ((exists e, recognized = Raise e) \/ recognized = Ok EmptyString ->
      fst (process_voice_input env recognized (voice_request session_id) w) = w)
  /\ (forall text,
        CS.state session <> st_ended ->
        recognized = Ok text ->
        truthy text = true ->
        strip (lower text) = lower text ->
        fst (process_voice_input env recognized (voice_request session_id) w)
        = fst (send_message env (text_message session_id (lower text)) w)).
Proof.
  intros Hid Hget.
  rewrite (@process_voice_input_found env w session_id session recognized
             Hid Hget).
  repeat split.
  - intros Hst. rewrite Hst. reflexivity.
  - intros [[e ->] | ->].
    + unfold listen_for_speech, bind.
      destruct (CS.state session); try reflexivity;
        destruct e; try reflexivity;
        match goal with
        | |- context [print_exn ?a ?b ?c] => destruct (print_exn a b c)
        end; reflexivity.
    + destruct (CS.state session); reflexivity.
  - intros text Hst -> Htext Hstrip.
    rewrite (@send_message_found env w session_id (lower text) session Hid Hget).
    rewrite Hstrip. cbv zeta. unfold listen_for_speech, serve_turn.
    assert (Ht : truthy (lower text) = true)
      by (destruct text; [discriminate | reflexivity]).
    rewrite Ht.
    destruct (CS.state session) eqn:Es; try contradiction;
      destruct (get_response_for_state env (services_db w) (bookings_db w)
                  (CS.append_history (user, lower text) session) (lower text))
        as [[[d' s'] reply]|e]; reflexivity.
Qed.

Lemma voice_route_behaviour_witness :
  let session := CS.set_state st_ended (CS.new "s1") in
  let w := mkWorld (services_db Scenario.w0) [] [("s1", session)] in
  process_voice_input (Scenario.env "-") (Ok "Cancel") (voice_request "s1") w
  = (w, Ok (voice_ended msg_voice_ended st_ended)).
Proof.
  intros session w.
  apply (proj1 (@voice_route_behaviour (Scenario.env "-") w "s1" session
                  (Ok "Cancel") eq_refl eq_refl)).
  reflexivity.
Defined.

(** ** Well-formed stores *)

Lemma dict_get_entry (V : Type) (k : string) (v : V) (d : dict V) :
  NoDup (map fst d) -> In (k, v) d -> dict_get k d = Ok v.
Proof.
  induction d as [|[k0 v0] r IH]; simpl; intros Hnd Hin; [destruct Hin |].
  inversion Hnd as [|? ? Hnotin Hnd']; subst.
  destruct Hin as [[= -> ->] | Hin].
  - now rewrite String.eqb_refl.
  - destruct (String.eqb k k0) eqn:E.
    + apply String.eqb_eq in E. subst k0. exfalso. apply Hnotin.
      change k with (fst (k, v)). now apply in_map.
    + now apply IH.
Qed.

Lemma dict_set_keys_new (V : Type) (k : string) (v : V) (d : dict V) :
  dict_has k d = false -> map fst (dict_set k v d) = (map fst d ++ [k])%list.
Proof.
  intros H. rewrite (dict_set_new_key _ _ _ H), map_app. reflexivity.
Qed.

Lemma dict_has_In (V : Type) (k : string) (d : dict V) :
  dict_has k d = false -> ~ In k (map fst d).
Proof.
  induction d as [|[k0 v0] r IH]; simpl; [intros _ [] |].
  destruct (String.eqb k k0) eqn:E; simpl; [discriminate |].
  intros H [Heq | Hin]; [| now apply IH].
  apply String.eqb_neq in E. congruence.
Qed.

Lemma NoDup_dict_set (V : Type) (k : string) (v : V) (d : dict V) :
  NoDup (map fst d) -> NoDup (map fst (dict_set k v d)).
Proof.
  intros Hnd. destruct (dict_has k d) eqn:E.
  - now rewrite dict_set_keys.
  - rewrite dict_set_keys_new by assumption.
    apply NoDup_app; [assumption | repeat constructor; intros [] |].
    intros x Hx [<- | []]. exact (dict_has_In _ _ E Hx).
Qed.

Lemma Forall_entries_set (V : Type) (P : string * V -> Prop) (k : string) (v : V)
    (d : dict V) :
  Forall P d -> P (k, v) -> Forall P (dict_set k v d).
Proof.
  induction d as [|[k0 v0] r IH]; simpl; intros Hd Hv.
  - repeat constructor; assumption.
  - inversion Hd; subst. destruct (String.eqb k k0) eqn:E; constructor; auto.
    apply String.eqb_eq in E. now subst k0.
Qed.

Lemma catalog_ok_set (k : string) (svc : Service.t) (d : dict Service.t) :
  catalog_ok d -> Service.id svc = k -> catalog_ok (dict_set k svc d).
Proof.
  intros [Hnd Hid] Hk. split.
  - now apply NoDup_dict_set.
  - now apply Forall_entries_set.
Qed.

Lemma catalog_ok_sample (u1 u2 u3 : string) :
  catalog_ok (initialize_sample_data u1 u2 u3).
Proof.
  unfold initialize_sample_data.
  repeat apply catalog_ok_set; try reflexivity.
  split; constructor.
Qed.

Lemma catalog_lookup (d : dict Service.t) (svc : Service.t) :
  catalog_ok d -> In svc (values d) -> dict_get (Service.id svc) d = Ok svc.
Proof.
  intros [Hnd Hid] Hin. unfold values in Hin.
  apply in_map_iff in Hin. destruct Hin as [[k v] [Hv Hin]]. simpl in Hv. subst v.
  pose proof (proj1 (Forall_forall _ _) Hid _ Hin) as Hk. simpl in Hk.
  rewrite Hk. now apply dict_get_entry.
Qed.

Lemma find_service_In (services : list Service.t) (user_input : string)
    (svc : Service.t) :
  find_service services user_input = Some svc -> In svc services.
Proof.
  induction services as [|s r IH]; simpl; [discriminate |].
  destruct (contains (lower (Service.name s)) (lower user_input)).
  - intros [= ->]. now left.
  - intros H. right. now apply IH.
Qed.

Lemma update_loop_service (services_db : dict Service.t) (session : CS.t)
    (d d' : dict Booking.t) (svc : Service.t) :
  update_loop services_db session d = Ok (Some (d', svc)) ->
  In svc (values services_db).
Proof.
  revert d'. induction d as [|[k b] r IH]; simpl; intros d'; [discriminate |].
  destruct (owned_confirmed session b).
  - destruct (dict_get (Booking.service_id b) services_db) eqn:Hg; simpl;
      [| discriminate].
    intros [= <- <-]. eapply dict_get_In; eassumption.
  - destruct (update_loop services_db session r) as [[[r' svc']|]|]; simpl;
      try discriminate.
    intros [= <- <-]. eapply IH; reflexivity.
Qed.

Lemma only_cancels_Forall (P : Booking.t -> Prop) (d d' : dict Booking.t) :
  (forall b, P b -> P (Booking.set_status cancelled b)) ->
  only_cancels d d' -> Forall P (values d) -> Forall P (values d').
Proof.
  intros HP H. unfold values.
  induction H as [|e e' r r' [Hk Hv] Hrest IH]; simpl; intros Hd; [constructor |].
  inversion Hd; subst. constructor; [| auto].
  destruct Hv as [-> | [_ ->]]; auto.
Qed.

Lemma booking_wf_cancelled (services_db : dict Service.t) (b : Booking.t) :
  booking_wf services_db b ->
  booking_wf services_db (Booking.set_status cancelled b).
Proof. exact (fun H => H). Qed.

Ltac wf_side :=
  try solve [ assumption
            | auto
            | intros [E | E]; discriminate E
            | intros E; discriminate E
            | intros _; congruence
            | intros _; discriminate ].

(** A successful turn keeps the stores well formed. *)
Lemma turn_keeps_wf (env : Env) (services_db : dict Service.t)
    (bookings_db bookings_db' : dict Booking.t) (session session' : CS.t)
    (user_input : string) :
  catalog_ok services_db ->
  Forall (booking_wf services_db) (values bookings_db) ->
  session_wf services_db session ->
  Turn env services_db bookings_db session user_input bookings_db' session' ->
  Forall (booking_wf services_db) (values bookings_db')
  /\ session_wf services_db session'.
Proof.
  intros Hcat Hb [Hs1 [Hs2 Hs3]] H.
  inversion H; subst; (split; [| repeat split; simpl; wf_side ]); wf_side.
  - eapply only_cancels_Forall;
      [apply booking_wf_cancelled | apply cancel_for_only_cancels | assumption].
  - eapply only_cancels_Forall;
      [apply booking_wf_cancelled
      | eapply update_loop_only_cancels; eassumption | assumption].
  - intros svc0 [= <-]. eapply update_loop_service; eassumption.
  - intros svc0 [= <-]. eapply find_service_In; eassumption.
  - intros _. exists svc, date, time_slot. repeat split; assumption.
  - apply Forall_dict_set; [assumption |].
    match goal with
    | Hst : CS.state _ = st_confirmation |- _ =>
        destruct (Hs3 Hst) as [svc0 [date [time_slot [E1 [E2 [E3 E4]]]]]]
    end.
    assert (svc0 = svc) by congruence. subst svc0.
    exists svc, date, time_slot. simpl. repeat split; auto.
    apply catalog_lookup; auto.
Qed.

Lemma booking_lines_ok (services_db : dict Service.t) (bs : list Booking.t) :
  Forall (booking_wf services_db) bs ->
  exists lines, booking_lines services_db bs = Ok lines.
Proof.
  induction 1 as [|b r [svc [date [t [Hg _]]]] _ [lines IH]]; simpl.
  - eauto.
  - rewrite Hg, IH. simpl. eauto.
Qed.

Lemma booking_rows_ok (services_db : dict Service.t) (bs : list Booking.t) :
  Forall (booking_wf services_db) bs ->
  exists rows, booking_rows services_db bs = Ok rows
               /\ map row_id rows = map Booking.id bs
               /\ map row_status rows = map Booking.status bs.
Proof.
  induction 1 as [|b r [svc [date [t [Hg _]]]] _ [rows [IH [I1 I2]]]]; simpl.
  - exists []. repeat split.
  - rewrite Hg, IH. simpl. eexists. split; [reflexivity |]. simpl.
    now rewrite I1, I2.
Qed.

Lemma update_loop_ok (services_db : dict Service.t) (session : CS.t)
    (d : dict Booking.t) :
  Forall (booking_wf services_db) (values d) ->
  exists o, update_loop services_db session d = Ok o.
Proof.
  unfold values. induction d as [|[k b] r IH]; simpl; intros H; [eauto |].
  inversion H as [|? ? [svc [date [t [Hg _]]]] Hr]; subst.
  destruct (owned_confirmed session b).
  - simpl in Hg. rewrite Hg. simpl. eauto.
  - destruct (IH Hr) as [o Ho]. rewrite Ho. simpl. eauto.
Qed.

(** On well-formed stores the dispatcher returns, unless the [print] of
    the date handler raises. *)
Lemma turn_returns (env : Env) (services_db : dict Service.t)
    (bookings_db : dict Booking.t) (session : CS.t) (user_input : string) :
  Forall (booking_wf services_db) (values bookings_db) ->
  session_wf services_db session ->
  (exists bookings_db' session' reply,
      get_response_for_state env services_db bookings_db session user_input
      = Ok (bookings_db', session', reply))
  \/ (exists e,
         get_response_for_state env services_db bookings_db session user_input
         = Raise e
         /\ date_print_fault env e).
Proof.
  intros Hb [Hs1 [Hs2 Hs3]].
  unfold get_response_for_state.
  destruct (any_in GOODBYE_KEYWORDS (lower user_input)); [left; eauto |].
  assert (Hflow :
    (exists bookings_db' session' reply,
        match CS.state session with
        | st_greeting => Ok (keep bookings_db (handle_greeting_state session))
        | st_name =>
            Ok (keep bookings_db
                  (handle_name_state services_db session user_input))
        | st_service =>
            Ok (keep bookings_db
                  (handle_service_state services_db session user_input))
        | st_datetime =>
            r <- handle_datetime_state env bookings_db session user_input ;;
            Ok (keep bookings_db r)
        | st_confirmation =>
            handle_confirmation_state env bookings_db session
              (classify user_input)
        | st_ended => Ok (bookings_db, session, msg_session_ended)
        | st_completed => Ok (bookings_db, session, msg_not_understood)
        end = Ok (bookings_db', session', reply))
    \/ (exists e,
           match CS.state session with
           | st_greeting => Ok (keep bookings_db (handle_greeting_state session))
           | st_name =>
               Ok (keep bookings_db
                     (handle_name_state services_db session user_input))
           | st_service =>
               Ok (keep bookings_db
                     (handle_service_state services_db session user_input))
           | st_datetime =>
               r <- handle_datetime_state env bookings_db session user_input ;;
               Ok (keep bookings_db r)
           | st_confirmation =>
               handle_confirmation_state env bookings_db session
                 (classify user_input)
           | st_ended => Ok (bookings_db, session, msg_session_ended)
           | st_completed => Ok (bookings_db, session, msg_not_understood)
           end = Raise e
           /\ date_print_fault env e)).
  { destruct (CS.state session) eqn:Hst; unfold keep; try (left; eauto; fail).
    - unfold handle_datetime_state, bind.
      rewrite extract_datetime_outcome.
      destruct (CS.selected_service session) as [svc|] eqn:Hsvc;
        [| exfalso; apply Hs2; auto].
      assert (Hgo : forall date time_slot,
                 exists bookings_db' session' reply,
                   match
                     (if truthy date && truthy time_slot
                      then
                        if mem time_slot (Service.available_slots svc)
                        then
                          if is_slot_available bookings_db (Service.id svc) date
                               time_slot
                          then
                            Ok (CS.set_state st_confirmation
                                  (CS.set_selected_time (Some time_slot)
                                     (CS.set_selected_date (Some date) session)),
                                msg_summary session svc date time_slot)
                          else Ok (session, msg_slot_taken svc)
                        else Ok (session, msg_datetime_again)
                      else Ok (session, msg_datetime_again))
                   with
                   | Ok a => Ok (bookings_db, fst a, snd a)
                   | Raise e => Raise e
                   end = Ok (bookings_db', session', reply)).
      { intros date time_slot.
        destruct (truthy date && truthy time_slot); [| eauto].
        destruct (mem time_slot (Service.available_slots svc)); [| eauto].
        destruct (is_slot_available bookings_db (Service.id svc) date time_slot);
          eauto. }
      destruct (parse env (strip user_input)) as [[date time_slot]|e0] eqn:Hp.
      + left. apply Hgo.
      + destruct (print_exn env "Date parsing error: " e0) as [u|e] eqn:Hpr.
        * left. apply Hgo.
        * right. exists e. split; [reflexivity |].
          exists (strip user_input), e0. split; assumption.
    - unfold handle_confirmation_state.
      destruct (CS.selected_service session) as [svc|] eqn:Hsvc;
        [| exfalso; apply Hs2; auto].
      left. destruct (classify user_input); eauto. }
  destruct (classify user_input); try exact Hflow.
  - left. destruct (cancel_loop session bookings_db) as [d' c]. destruct c; eauto.
  - left. destruct (@update_loop_ok services_db session bookings_db Hb) as [o Ho].
    rewrite Ho. simpl.
    destruct o as [[d' svc]|]; eauto.
  - left.
    destruct (filter (owned_confirmed session) (values bookings_db)) eqn:Hf;
      [eauto |].
    assert (Hw : Forall (booking_wf services_db) (t :: l)).
    { rewrite <- Hf. apply Forall_forall. intros b Hin.
      apply filter_In in Hin. destruct Hin as [Hin _].
      exact (proj1 (Forall_forall _ _) Hb b Hin). }
    destruct (@booking_lines_ok services_db (t :: l) Hw) as [lines Hl].
    rewrite Hl. simpl. eauto.
Qed.

Lemma session_wf_new (services_db : dict Service.t) (uuid : string) :
  session_wf services_db (CS.new uuid).
Proof.
  repeat split; simpl; wf_side.
  intros svc E. discriminate E.
Qed.

Lemma step_keeps_wf (w : World) (c : Env * Call) :
  world_wf w -> world_wf (step w c) /\ services_db (step w c) = services_db w.
Proof.
  intros [Hcat [Hb Hs]]. destruct c as [env [|body]]; simpl.
  - split; [| reflexivity]. repeat split; try assumption; try apply Hcat.
    simpl. apply Forall_dict_set; [assumption | apply session_wf_new].
  - destruct (send_message_cases env body w)
      as [[e ->] | [session_id [session [text [_ [Hget ->]]]]]];
      [split; [repeat split; try assumption; apply Hcat | reflexivity] |].
    unfold serve_turn.
    assert (Hsess : session_wf (services_db w) session).
    { exact (proj1 (Forall_forall _ _) Hs session (dict_get_In _ _ Hget)). }
    set (s1 := CS.append_history (user, text) session).
    assert (Hs1 : session_wf (services_db w) s1) by exact Hsess.
    destruct (get_response_for_state env (services_db w) (bookings_db w) s1
                text) as [[[d' s'] reply]|e] eqn:Hr; simpl.
    + destruct (@turn_keeps_wf _ _ _ _ _ _ _ Hcat Hb Hs1
                  (@turn_inversion _ _ _ _ _ _ _ _ Hr)) as [Hb' Hs'].
      split; [| reflexivity]. repeat split; try assumption; try apply Hcat.
      simpl. apply Forall_dict_set; [assumption | exact Hs'].
    + split; [| reflexivity]. repeat split; try assumption; try apply Hcat.
      simpl. apply Forall_dict_set; assumption.
Qed.

Lemma run_keeps_wf (calls : list (Env * Call)) (w : World) :
  world_wf w ->
  world_wf (run w calls) /\ services_db (run w calls) = services_db w.
Proof.
  revert w. induction calls as [|c calls IH]; intros w H; simpl.
  - split; [exact H | reflexivity].
  - destruct (step_keeps_wf c H) as [H1 H2].
    destruct (IH _ H1) as [H3 H4]. split; [exact H3 | congruence].
Qed.

Lemma initial_world_wf (u1 u2 u3 : string) : world_wf (initial_world u1 u2 u3).
Proof.
  repeat split; try constructor; apply catalog_ok_sample.
Qed.

(** On well-formed stores a served turn answers, unless the [print] of
    the date handler raises. *)
Lemma serve_turn_outcome (env : Env) (w : World) (session_id : string)
    (session : CS.t) (text : string) :
  world_wf w ->
  dict_get session_id (sessions_db w) = Ok session ->
  (exists reply st, snd (serve_turn env session_id session text w) = Ok (reply, st))
  \/ (exists e, snd (serve_turn env session_id session text w) = Raise e
                /\ date_print_fault env e).
Proof.
  intros [Hcat [Hb Hs]] Hget. unfold serve_turn.
  assert (Hsess : session_wf (services_db w)
                    (CS.append_history (user, text) session)).
  { exact (proj1 (Forall_forall _ _) Hs session (dict_get_In _ _ Hget)). }
  destruct (@turn_returns env (services_db w) (bookings_db w)
              (CS.append_history (user, text) session) text Hb Hsess)
    as [[d' [s' [reply Hr]]] | [e [Hr Hf]]]; rewrite Hr; simpl; eauto.
Qed.

(** What the text route does with a decoded body. *)
Lemma send_message_faults (env : Env) (w : World) (data : json) :
  (exists e, send_message env (Ok data) w = (w, Raise e)
             /\ request_fault true data e)
  \/ exists session_id session text,
      dict_get session_id (sessions_db w) = Ok session
      /\ send_message env (Ok data) w = serve_turn env session_id session text w.
Proof.
  destruct data as [|b|z|nz|s0|items|fields];
    try (left; exists AttributeError; split;
         [reflexivity | right; left; split; reflexivity]).
  rewrite send_message_object.
  pose proof (message_ok_strip fields) as Hm.
  destruct (message_ok fields) eqn:Hok.
  - destruct Hm as [text ->].
    destruct (find_session_cases (session_id_of fields) w)
      as [H | [[H Hu] | [sid [session [_ [_ [Hget H]]]]]]]; rewrite H.
    + left. eexists. split; [reflexivity | now left].
    + left. eexists. split; [reflexivity |].
      right. right. exists fields. split; [reflexivity |]. right.
      split; [reflexivity |].
      destruct (session_id_of fields) as [| | | | |[|x l]|[|f l]];
        try destruct Hu; reflexivity.
    + right. eauto.
  - rewrite Hm. left. eexists. split; [reflexivity |].
    right. right. exists fields. split; [reflexivity |]. left. auto.
Qed.

(** ** What holds after any conversation *)

(** X11: after any sequence of start-session and send-message calls,
    whatever their bodies, on the freshly loaded stores, the next request
    fails only for a reason that lies in the request or in a [print]: the
    text route answers, or raises the 404, the [AttributeError] of a body
    that is not an object or of a message that is not a string, the
    [TypeError] of an unhashable identifier, or what the [print] of the
    date handler raised; the voice route likewise, with the [print] of the
    speech handler in addition.  No lookup of a booking's service fails
    and no handler meets a missing selection: on a standard output that
    takes every text, a message of a client to a session that exists is
    always answered.  The bookings listing returns one row per stored
    booking. *)
Theorem only_requests_and_prints_fail (u1 u2 u3 : string)
    (calls : list (Env * Call)) (env : Env) (data : json)
    (recognized : res string) :
  let w := run (initial_world u1 u2 u3) calls in
  (forall e,
      snd (send_message env (Ok data) w) = Raise e ->
      request_fault true data e \/ date_print_fault env e)
  /\ (forall e,
        snd (process_voice_input env recognized (Ok data) w) = Raise e ->
        request_fault false data e
        \/ date_print_fault env e
        \/ speech_print_fault env recognized e)
  /\ (print_never_raises env ->
      forall session_id message,
        truthy session_id = true ->
        dict_has session_id (sessions_db w) = true ->
        exists reply st,
          snd (send_message env (text_message session_id message) w)
          = Ok (reply, st))
  /\ (exists rows, get_bookings w = Ok rows
                   /\ map row_id rows = map Booking.id (values (bookings_db w))
                   /\ map row_status rows
                      = map Booking.status (values (bookings_db w))).
Proof.
  intros w.
  destruct (@run_keeps_wf calls (initial_world u1 u2 u3) (initial_world_wf u1 u2 u3))
    as [Hwf _].
  fold w in Hwf.
  split; [| split; [| split]].
  - intros e He.
    destruct (send_message_faults env w data)
      as [[e' [Hs Hf]] | [sid [session [text [Hget Hs]]]]];
      rewrite Hs in He.
    + simpl in He. injection He as <-. now left.
    + destruct (@serve_turn_outcome env w sid session text Hwf Hget)
        as [[reply [st Hr]] | [e' [Hr Hf]]]; rewrite Hr in He.
      * discriminate He.
      * injection He as <-. now right.
  - intros e He.
    destruct data as [|b|z|nz|s0|items|fields];
      try (simpl in He; injection He as <-; left; right; left;
           split; reflexivity).
    unfold process_voice_input, bind, json_get in He.
    fold (session_id_of fields) in He.
    destruct (find_session_cases (session_id_of fields) w)
      as [H | [[H Hu] | [sid [session [_ [_ [Hget H]]]]]]]; rewrite H in He.
    + simpl in He. injection He as <-. left. now left.
    + simpl in He. injection He as <-. left. right. right.
      exists fields. split; [reflexivity |]. right. split; [reflexivity |].
      destruct (session_id_of fields) as [| | | | |[|x l]|[|f l]];
        try destruct Hu; reflexivity.
    + assert (Hrest :
        snd (match listen_for_speech env recognized with
             | Raise e0 => (w, Raise e0)
             | Ok (Some speech_text) =>
                 if truthy speech_text then
                   match serve_turn env sid session speech_text w with
                   | (w', Ok (response, state)) =>
                       (w', Ok (voice_heard speech_text response state))
                   | (w', Raise e0) => (w', Raise e0)
                   end
                 else (w, Ok voice_not_heard)
             | Ok None => (w, Ok voice_not_heard)
             end) = Raise e ->
        date_print_fault env e \/ speech_print_fault env recognized e).
      { clear He. intros He.
        destruct (listen_for_speech env recognized) as [[text|]|e0] eqn:Hl.
        - destruct (truthy text); [| discriminate He].
          destruct (@serve_turn_outcome env w sid session text Hwf Hget)
            as [[reply [st Hr]] | [e' [Hr Hf]]];
            destruct (serve_turn env sid session text w) as [w' [[r st']|e1]];
            simpl in Hr, He; try discriminate; try congruence.
          left. congruence.
        - discriminate He.
        - simpl in He. injection He as <-. right.
          unfold listen_for_speech, bind in Hl.
          destruct recognized as [t|e1]; [discriminate Hl |].
          exists e1. split; [reflexivity |].
          destruct e1; try discriminate Hl;
            match type of Hl with
            | context [print_exn ?a ?b ?c] =>
                destruct (print_exn a b c) eqn:Hp; [discriminate Hl |]
            end; congruence. }
      destruct (CS.state session); try (right; apply Hrest; exact He).
      discriminate He.
  - intros Hprint session_id message Hid Hhas.
    destruct (dict_has_get_ok _ _ Hhas) as [session Hget].
    rewrite (@send_message_found env w session_id message session Hid Hget).
    cbv zeta.
    assert (Hsess : session_wf (services_db w)
                      (CS.append_history (user, strip message) session)).
    { destruct Hwf as [_ [_ Hs]].
      exact (proj1 (Forall_forall _ _) Hs session (dict_get_In _ _ Hget)). }
    destruct Hwf as [_ [Hb _]].
    destruct (@turn_returns env (services_db w) (bookings_db w)
                (CS.append_history (user, strip message) session)
                (strip message) Hb Hsess)
      as [[d' [s' [reply Hr]]] | [e [Hr [t [e0 [_ Hf]]]]]]; rewrite Hr.
    + simpl. eauto.
    + rewrite Hprint in Hf. discriminate Hf.
  - apply booking_rows_ok. apply Hwf.
Qed.

Lemma only_requests_and_prints_fail_witness :
  exists reply st,
    snd (send_message (Scenario.env "-") (text_message "s1" "blah")
           (run (initial_world "svc-h" "svc-c" "svc-m") Scenario.to_datetime))
    = Ok (reply, st).
Proof.
  refine (proj1 (proj2 (proj2
            (@only_requests_and_prints_fail "svc-h" "svc-c" "svc-m"
               Scenario.to_datetime (Scenario.env "-") JNull (Ok "hi"))))
            _ "s1" "blah" eq_refl _).
  - intros prefix e. reflexivity.
  - vm_compute. reflexivity.
Defined.

(** X12: after any sequence of start-session and send-message calls on
    the freshly loaded stores, every stored booking refers to a service of
    the catalogue, has a date, and has a time that is one of that
    service's slots; the catalogue is still the sample data. *)
Theorem reachable_bookings_fit_the_catalog (u1 u2 u3 : string)
    (calls : list (Env * Call)) :
  let w := run (initial_world u1 u2 u3) calls in
  Forall (booking_wf (services_db w)) (values (bookings_db w))
  /\ services_db w = initialize_sample_data u1 u2 u3.
Proof.
  intros w.
  destruct (@run_keeps_wf calls (initial_world u1 u2 u3) (initial_world_wf u1 u2 u3))
    as [[Hcat [Hb Hs]] Hsvc].
  split; assumption.
Qed.

(** ** Slot exclusivity, turn by turn *)

Lemma only_cancels_nth (d d' : dict Booking.t) (i : nat) (b' : Booking.t) :
  only_cancels d d' ->
  nth_error (values d') i = Some b' ->
  Booking.status b' = confirmed ->
  nth_error (values d) i = Some b'.
Proof.
  intros H. revert i. unfold values.
  induction H as [|e e' r r' [Hk Hv] Hrest IH]; intros i; simpl.
  - destruct i; discriminate.
  - destruct i as [|i]; simpl; [| apply IH].
    intros [= <-] Hc. destruct Hv as [-> | [_ Hv]]; [reflexivity |].
    rewrite Hv in Hc. discriminate Hc.
Qed.

Lemma only_cancels_exclusive (d d' : dict Booking.t) :
  only_cancels d d' -> slot_exclusive d -> slot_exclusive d'.
Proof.
  intros H Hex i j b1 b2 Hij H1 H2 C1 C2.
  apply (Hex i j b1 b2 Hij); auto; eapply only_cancels_nth; eassumption.
Qed.

Lemma values_app (V : Type) (d1 d2 : dict V) :
  values (d1 ++ d2)%list = (values d1 ++ values d2)%list.
Proof. apply map_app. Qed.

Lemma append_exclusive (d : dict Booking.t) (k : string) (bk : Booking.t) :
  slot_exclusive d ->
  (forall b, In b (values d) -> Booking.status b = confirmed -> ~ same_slot b bk) ->
  slot_exclusive (d ++ [(k, bk)])%list.
Proof.
  intros Hex Hnew i j b1 b2 Hij H1 H2 C1 C2 Hsame.
  rewrite values_app in H1, H2. simpl in H1, H2.
  destruct (Nat.lt_ge_cases i (length (values d))) as [Hi | Hi];
    destruct (Nat.lt_ge_cases j (length (values d))) as [Hj | Hj].
  - rewrite nth_error_app1 in H1, H2 by assumption.
    exact (Hex i j b1 b2 Hij H1 H2 C1 C2 Hsame).
  - rewrite nth_error_app1 in H1 by assumption.
    rewrite nth_error_app2 in H2 by assumption.
    destruct (j - length (values d)) as [|n]; simpl in H2;
      [| destruct n; discriminate].
    injection H2 as <-.
    exact (Hnew b1 (nth_error_In _ _ H1) C1 Hsame).
  - rewrite nth_error_app2 in H1 by assumption.
    rewrite nth_error_app1 in H2 by assumption.
    destruct (i - length (values d)) as [|n]; simpl in H1;
      [| destruct n; discriminate].
    injection H1 as <-.
    apply (Hnew b2 (nth_error_In _ _ H2) C2).
    destruct Hsame as [S1 [S2 S3]]. repeat split; congruence.
  - rewrite nth_error_app2 in H1, H2 by assumption.
    destruct (i - length (values d)) as [|n] eqn:Ei; simpl in H1;
      [| destruct n; discriminate].
    destruct (j - length (values d)) as [|m] eqn:Ej; simpl in H2;
      [| destruct m; discriminate].
    apply Hij.
    apply Nat.sub_0_le in Ei. apply Nat.sub_0_le in Ej.
    apply Nat.le_antisymm;
      [eapply Nat.le_trans; [exact Ei | exact Hj]
      | eapply Nat.le_trans; [exact Ej | exact Hi]].
Qed.

(** X13: a turn keeps the slot-exclusivity invariant whenever its
    confirmation, if it is one, finds the slot still free: if no two
    confirmed bookings share a slot before the turn, the identifier drawn
    is not in use, and a confirm message in the confirmation state comes
    with a recorded date and time for which [is_slot_available] answers
    true, then no two confirmed bookings share a slot after the turn.
    Every other kind of turn keeps the invariant unconditionally. *)
Theorem exclusivity_kept_when_slot_still_free (env : Env)
    (services_db : dict Service.t) (bookings_db bookings_db' : dict Booking.t)
    (session session' : CS.t) (user_input reply : string) :
  slot_exclusive bookings_db ->
  get_response_for_state env services_db bookings_db session user_input
  = Ok (bookings_db', session', reply) ->
  dict_has (uuid4 env) bookings_db = false ->
  (CS.state session = st_confirmation ->
   classify user_input = i_confirm ->
   exists svc date time_slot,
     CS.selected_service session = Some svc
     /\ CS.selected_date session = Some date
     /\ CS.selected_time session = Some time_slot
     /\ is_slot_available bookings_db (Service.id svc) date time_slot = true) ->
  slot_exclusive bookings_db'.
Proof.
  intros Hex Hr Hfresh Hfree.
  destruct (@turn_ledger_cases _ _ _ _ _ _ _ (@turn_inversion _ _ _ _ _ _ _ _ Hr))
    as [Hoc | [Hst [Hc [_ [svc [Hsvc ->]]]]]].
  - eapply only_cancels_exclusive; eassumption.
  - destruct (Hfree Hst Hc) as [svc0 [date [time_slot [E1 [E2 [E3 E4]]]]]].
    assert (svc0 = svc) by congruence. subst svc0.
    rewrite (dict_set_new_key _ _ _ Hfresh).
    apply append_exclusive; [assumption |].
    intros b Hin Hconf [S1 [S2 S3]]. simpl in S1, S2, S3.
    assert (Hocc : is_slot_available bookings_db (Service.id svc) date time_slot
                   = false).
    { unfold is_slot_available. apply slot_free_spec.
      exists b. split; [assumption |].
      unfold occupies. repeat split; congruence. }
    congruence.
Qed.

Lemma exclusivity_kept_when_slot_still_free_witness :
  let session :=
    with_slot "2026-11-03" "09:00 AM"
      (CS.set_selected_service (Some (haircut "svc-h"))
         (CS.set_user_name (Some "Alice") (CS.new "s1"))) in
  slot_exclusive
    (dict_set "b1"
       (Booking.mk "b1" (Some "Alice") "svc-h" (Some "2026-11-03")
          (Some "09:00 AM") confirmed) []).
Proof.
  intros session.
  apply (@exclusivity_kept_when_slot_still_free (Scenario.env "b1")
           (services_db Scenario.w0) [] _ session
           (CS.set_state st_completed session) "yes"
           (msg_confirmed
              (Booking.mk "b1" (Some "Alice") "svc-h" (Some "2026-11-03")
                 (Some "09:00 AM") confirmed) session (haircut "svc-h"))).
  - intros i j b1 b2 _ H. destruct i; discriminate H.
  - reflexivity.
  - reflexivity.
  - intros _ _. exists (haircut "svc-h"), "2026-11-03", "09:00 AM".
    repeat split; reflexivity.
Defined.

(** ** The update intent *)

Lemma update_loop_first (services_db : dict Service.t) (session : CS.t)
    (pre post : dict Booking.t) (k : string) (b : Booking.t) :
  Forall (fun e => owned_confirmed session (snd e) = false) pre ->
  owned_confirmed session b = true ->
  update_loop services_db session (pre ++ (k, b) :: post)%list
  = match dict_get (Booking.service_id b) services_db with
    | Ok svc =>
        Ok (Some ((pre ++ (k, Booking.set_status cancelled b) :: post)%list, svc))
    | Raise e => Raise e
    end.
Proof.
  intros Hpre Hb. induction Hpre as [|[k0 b0] r H0 Hr IH]; simpl.
  - rewrite Hb. destruct (dict_get (Booking.service_id b) services_db); reflexivity.
  - simpl in H0. rewrite H0, IH.
    destruct (dict_get (Booking.service_id b) services_db); reflexivity.
Qed.

(** X14: a message without goodbye keyword that is classified update
    cancels the first confirmed booking, in the order of the store, that
    carries the session's user name, and only that one: later bookings of
    the same caller stay confirmed.  The session takes the service of that
    booking as its selection and moves to the datetime state, from any
    state.  When the service of that booking is not in the catalogue the
    turn raises the key error and nothing is changed. *)
Theorem update_rebooks_first_booking (env : Env) (services_db : dict Service.t)
    (session : CS.t) (user_input : string) (pre post : dict Booking.t)
    (k : string) (b : Booking.t) :
  says_goodbye user_input = false ->
  classify user_input = i_update ->
  Forall (fun e => owned_confirmed session (snd e) = false) pre ->
  owned_confirmed session b = true ->
  get_response_for_state env services_db (pre ++ (k, b) :: post)%list session
    user_input
  = match dict_get (Booking.service_id b) services_db with
    | Ok svc =>
        Ok ((pre ++ (k, Booking.set_status cancelled b) :: post)%list,
            CS.set_state st_datetime
              (CS.set_selected_service (Some svc) session),
            msg_rebook svc)
    | Raise e => Raise e
    end.
Proof.
  intros Hbye Hc Hpre Hb.
  unfold get_response_for_state. fold (says_goodbye user_input).
  rewrite Hbye, Hc. cbv iota.
  rewrite (@update_loop_first services_db session pre post k b Hpre Hb).
  destruct (dict_get (Booking.service_id b) services_db); reflexivity.
Qed.

Lemma update_rebooks_first_booking_witness :
  let session :=
    CS.set_state st_completed (CS.set_user_name (Some "Alice") (CS.new "s1")) in
  let mk_b i t :=
    (i, Booking.mk i (Some "Alice") "svc-h" (Some "2026-11-03") (Some t)
          confirmed) in
  get_response_for_state (Scenario.env "-") (services_db Scenario.w0)
    ([] ++ mk_b "b1" "09:00 AM" :: [mk_b "b2" "10:00 AM"])%list session
    "change it"
  = match dict_get (Booking.service_id (snd (mk_b "b1" "09:00 AM")))
            (services_db Scenario.w0) with
    | Ok svc =>
        Ok (([] ++ ("b1", Booking.set_status cancelled (snd (mk_b "b1" "09:00 AM")))
                :: [mk_b "b2" "10:00 AM"])%list,
            CS.set_state st_datetime
              (CS.set_selected_service (Some svc) session),
            msg_rebook svc)
    | Raise e => Raise e
    end.
Proof.
  intros session mk_b.
  apply (@update_rebooks_first_booking (Scenario.env "-")
           (services_db Scenario.w0) session "change it" []
           [mk_b "b2" "10:00 AM"] "b1" (snd (mk_b "b1" "09:00 AM")));
    try reflexivity.
  constructor.
Defined.

(** ** Normalisation of the input *)

Lemma to_lower_idem (c : ascii) : to_lower (to_lower c) = to_lower c.
Proof. destruct c as [[] [] [] [] [] [] [] []]; reflexivity. Qed.

Lemma is_space_to_lower (c : ascii) : is_space (to_lower c) = is_space c.
Proof. destruct c as [[] [] [] [] [] [] [] []]; reflexivity. Qed.

Lemma lower_idem (s : string) : lower (lower s) = lower s.
Proof.
  induction s as [|c r IH]; simpl; [reflexivity |].
  now rewrite to_lower_idem, IH.
Qed.

Lemma lstrip_lower (s : string) : lstrip (lower s) = lower (lstrip s).
Proof.
  induction s as [|c r IH]; simpl; [reflexivity |].
  rewrite is_space_to_lower. destruct (is_space c); [exact IH | reflexivity].
Qed.

Lemma rstrip_lower (s : string) : rstrip (lower s) = lower (rstrip s).
Proof.
  induction s as [|c r IH]; simpl; [reflexivity |].
  rewrite IH, is_space_to_lower.
  destruct (rstrip r); simpl; [destruct (is_space c) |]; reflexivity.
Qed.

Lemma strip_lower (s : string) : strip (lower s) = lower (strip s).
Proof. unfold strip. now rewrite lstrip_lower, rstrip_lower. Qed.

Lemma rstrip_idem (s : string) : rstrip (rstrip s) = rstrip s.
Proof.
  induction s as [|c r IH]; simpl; [reflexivity |].
  destruct (rstrip r) as [|c' r'] eqn:E.
  - destruct (is_space c) eqn:Ec; simpl; [reflexivity | now rewrite Ec].
  - simpl. simpl in IH. now rewrite IH.
Qed.

Lemma lstrip_clean (s : string) : starts_clean (lstrip s).
Proof.
  induction s as [|c r IH]; simpl; [exact I |].
  destruct (is_space c) eqn:E; [exact IH | exact E].
Qed.

Lemma lstrip_of_clean (s : string) : starts_clean s -> lstrip s = s.
Proof.
  destruct s as [|c r]; simpl; [reflexivity |]. now intros ->.
Qed.

Lemma rstrip_clean (s : string) : starts_clean s -> starts_clean (rstrip s).
Proof.
  destruct s as [|c r]; simpl; [trivial |]. intros E.
  destruct (rstrip r); [rewrite E |]; exact E.
Qed.

Lemma strip_idem (s : string) : strip (strip s) = strip s.
Proof.
  unfold strip.
  rewrite (@lstrip_of_clean _ (@rstrip_clean _ (lstrip_clean s))).
  apply rstrip_idem.
Qed.

(** X15: the classifier and the goodbye test do not depend on letter
    case, and the classifier does not depend on surrounding white space —
    so a message is classified alike whether it arrives raw, trimmed by the
    text route or lower-cased by the voice route. *)
Theorem classification_ignores_case_and_margins (text : string) :
  classify (lower text) = classify text
  /\ classify (strip text) = classify text
  /\ classify (strip (lower text)) = classify text
  /\ says_goodbye (lower text) = says_goodbye text.
Proof.
  unfold classify, says_goodbye. repeat split.
  - now rewrite lower_idem.
  - now rewrite <- strip_lower, strip_idem.
  - now rewrite <- strip_lower, lower_idem, strip_idem.
  - now rewrite lower_idem.
Qed.

(** ** The name and service questions *)

Lemma re_search_word_nonempty (lit s w : string) :
  re_search_word lit s = Some w -> truthy w = true.
Proof.
  induction s as [|c r IH]; simpl.
  - destruct (after_prefix lit EmptyString) as [rest|];
      [destruct (word_run rest) eqn:E |]; intros [= <-]; reflexivity.
  - destruct (after_prefix lit (String c r)) as [rest|];
      [destruct (word_run rest) eqn:E |];
      try exact IH.
    intros [= <-]. reflexivity.
Qed.

Lemma title_aux_truthy (p : bool) (w : string) :
  truthy (title_aux p w) = truthy w.
Proof. destruct w as [|c r]; simpl; [| destruct (is_alpha c)]; reflexivity. Qed.

Lemma first_pattern_nonempty (patterns : list string) (text n : string) :
  first_pattern patterns text = Some n -> truthy n = true.
Proof.
  induction patterns as [|p r IH]; simpl; [discriminate |].
  destruct (re_search_word p (lower text)) as [g|] eqn:E; [| exact IH].
  intros [= <-]. unfold title. rewrite title_aux_truthy.
  eapply re_search_word_nonempty; eassumption.
Qed.

Lemma split_aux_nonempty (cur s : string) :
  Forall (fun w => truthy w = true) (split_aux cur s).
Proof.
  revert cur. induction s as [|c r IH]; intros cur; simpl.
  - destruct cur; repeat constructor.
  - destruct (is_space c); [| apply IH].
    destruct cur; [apply IH | constructor; [reflexivity | apply IH]].
Qed.

Lemma extract_name_nonempty (text n : string) :
  extract_name text = Some n -> truthy n = true.
Proof.
  unfold extract_name.
  destruct (first_pattern name_patterns (strip text)) as [m|] eqn:E.
  - intros [= <-]. eapply first_pattern_nonempty; eassumption.
  - pose proof (split_aux_nonempty EmptyString (strip text)) as Hs.
    fold (split (strip text)) in Hs.
    destruct (split (strip text)) as [|w1 [|w2 [|w3 r]]]; try discriminate.
    + destruct (isalpha w1); [| discriminate]. intros [= <-].
      inversion Hs; subst. unfold title. now rewrite title_aux_truthy.
    + destruct (isalpha w1 && isalpha w2); [| discriminate]. intros [= <-].
      inversion Hs; subst. simpl. unfold title.
      destruct (title_aux false w1) eqn:Et; [| reflexivity].
      pose proof (title_aux_truthy false w1) as Ht. rewrite Et in Ht.
      simpl in Ht. congruence.
Qed.

(** X16: in the name state, for a message without goodbye keyword that
    is not classified as a global intent: when [extract_name] finds a name
    the session records exactly that name and moves to the service state —
    an extracted name is never empty, so the truthiness test of the handler
    never discards one — and when it finds none the session is unchanged
    and the caller is asked again.  The bookings are not touched. *)
Theorem name_turn_follows_extraction (env : Env) (services_db : dict Service.t)
    (bookings_db : dict Booking.t) (session : CS.t) (user_input : string) :
  CS.state session = st_name ->
  says_goodbye user_input = false ->
  is_global (classify user_input) = false ->
  match extract_name user_input with
  | Some n =>
      truthy n = true
      /\ exists reply,
          get_response_for_state env services_db bookings_db session user_input
          = Ok (bookings_db,
                CS.set_state st_service (CS.set_user_name (Some n) session),
                reply)
  | None =>
      get_response_for_state env services_db bookings_db session user_input
      = Ok (bookings_db, session, msg_name_again)
  end.
Proof.
  intros Hst Hbye Hglob.
  assert (Hflow :
    get_response_for_state env services_db bookings_db session user_input
    = Ok (keep bookings_db (handle_name_state services_db session user_input))).
  { unfold get_response_for_state. fold (says_goodbye user_input). rewrite Hbye.
    destruct (classify user_input); try discriminate Hglob;
      cbv iota; rewrite Hst; reflexivity. }
  rewrite Hflow. unfold handle_name_state.
  destruct (extract_name user_input) as [n|] eqn:En; [| reflexivity].
  rewrite (@extract_name_nonempty _ _ En). split; [reflexivity |].
  eexists. reflexivity.
Qed.

Lemma name_turn_follows_extraction_witness :
  truthy "Alice" = true
  /\ exists reply,
      get_response_for_state (Scenario.env "-") (services_db Scenario.w0) []
        (CS.set_state st_name (CS.new "s1")) "my name is alice"
      = Ok ([],
            CS.set_state st_service
              (CS.set_user_name (Some "Alice") (CS.set_state st_name (CS.new "s1"))),
            reply).
Proof.
  apply (@name_turn_follows_extraction (Scenario.env "-")
           (services_db Scenario.w0) [] (CS.set_state st_name (CS.new "s1"))
           "my name is alice"); reflexivity.
Defined.

Lemma find_service_first (services : list Service.t) (user_input : string) :
  match find_service services user_input with
  | Some svc =>
      exists before after,
        services = (before ++ svc :: after)%list
        /\ contains (lower (Service.name svc)) (lower user_input) = true
        /\ Forall (fun s => contains (lower (Service.name s)) (lower user_input)
                            = false) before
  | None =>
      Forall (fun s => contains (lower (Service.name s)) (lower user_input) = false)
        services
  end.
Proof.
  induction services as [|s r IH]; simpl; [constructor |].
  destruct (contains (lower (Service.name s)) (lower user_input)) eqn:E.
  - exists [], r. repeat split; auto.
  - destruct (find_service r user_input) as [svc|].
    + destruct IH as [before [after [-> [Hm Hb]]]].
      exists (s :: before), after. repeat split; auto.
    + constructor; assumption.
Qed.

(** X17: in the service state, for a message without goodbye keyword
    that is not classified as a global intent, the service chosen is the
    first one in the order of the catalogue whose name, in lower case,
    occurs in the lower-cased message; the session selects it and moves to
    the datetime state.  When no service name occurs in the message the
    session is unchanged.  The choice does not depend on the letter case of
    the message, and the bookings are not touched. *)
Theorem service_turn_picks_first_match (env : Env) (services_db : dict Service.t)
    (bookings_db : dict Booking.t) (session : CS.t) (user_input : string) :
  CS.state session = st_service ->
  says_goodbye user_input = false ->
  is_global (classify user_input) = false ->
  find_service (values services_db) (lower user_input)
  = find_service (values services_db) user_input
  /\ match find_service (values services_db) user_input with
     | Some svc =>
         (exists before after,
             values services_db = (before ++ svc :: after)%list
             /\ contains (lower (Service.name svc)) (lower user_input) = true
             /\ Forall (fun s => contains (lower (Service.name s))
                                   (lower user_input) = false) before)
         /\ exists reply,
             get_response_for_state env services_db bookings_db session user_input
             = Ok (bookings_db,
                   CS.set_state st_datetime
                     (CS.set_selected_service (Some svc) session),
                   reply)
     | None =>
         Forall (fun s => contains (lower (Service.name s)) (lower user_input)
                          = false) (values services_db)
         /\ exists reply,
             get_response_for_state env services_db bookings_db session user_input
             = Ok (bookings_db, session, reply)
     end.
Proof.
  intros Hst Hbye Hglob. split.
  { induction (values services_db) as [|s r IH]; simpl; [reflexivity |].
    now rewrite lower_idem, IH. }
  assert (Hflow :
    get_response_for_state env services_db bookings_db session user_input
    = Ok (keep bookings_db (handle_service_state services_db session user_input))).
  { unfold get_response_for_state. fold (says_goodbye user_input). rewrite Hbye.
    destruct (classify user_input); try discriminate Hglob;
      cbv iota; rewrite Hst; reflexivity. }
  rewrite Hflow. unfold handle_service_state.
  pose proof (find_service_first (values services_db) user_input) as Hf.
  destruct (find_service (values services_db) user_input) as [svc|];
    (split; [exact Hf | eexists; reflexivity]).
Qed.

Lemma service_turn_picks_first_match_witness :
  find_service (values (services_db Scenario.w0)) (lower "a MASSAGE or a haircut")
  = find_service (values (services_db Scenario.w0)) "a MASSAGE or a haircut".
Proof.
  apply (proj1 (@service_turn_picks_first_match (Scenario.env "-")
                  (services_db Scenario.w0) []
                  (CS.set_state st_service (CS.new "s1"))
                  "a MASSAGE or a haircut" eq_refl eq_refl eq_refl)).
Defined.

(** ** Cancelling and the ledger *)

Lemma cancel_turn_result (env : Env) (services_db : dict Service.t)
    (bookings_db bookings_db' : dict Booking.t) (session session' : CS.t)
    (user_input reply : string) :
  says_goodbye user_input = false ->
  classify user_input = i_cancel ->
  get_response_for_state env services_db bookings_db session user_input
  = Ok (bookings_db', session', reply) ->
  bookings_db' = cancel_for session bookings_db.
Proof.
  intros Hbye Hc. unfold get_response_for_state.
  fold (says_goodbye user_input). rewrite Hbye, Hc. cbv iota.
  pose proof (cancel_loop_fst session bookings_db) as H1.
  destruct (cancel_loop session bookings_db) as [d' c]. simpl in H1. subst d'.
  destruct c; intros [= <- <- <-]; reflexivity.
Qed.

Lemma cancel_for_occupied (session : CS.t) (d : dict Booking.t)
    (service_id date time : string) :
  (exists b', In b' (values (cancel_for session d))
              /\ occupies service_id date time b')
  <-> (exists b, In b (values d)
                 /\ occupies service_id date time b
                 /\ Booking.user_name b <> CS.user_name session).
Proof.
  unfold values, cancel_for. induction d as [|[k b] r IH]; simpl.
  - split; [intros [b' [[] _]] | intros [b [[] _]]].
  - split.
    + intros [b' [[Hb' | Hin] Hocc]].
      * destruct (owned_confirmed session b) eqn:E; subst b'.
        -- destruct Hocc as [_ [_ [_ Hst]]]. discriminate Hst.
        -- exists b. split; [now left |]. split; [assumption |].
           intros Hn. destruct Hocc as [_ [_ [_ Hst]]].
           unfold owned_confirmed, is_confirmed in E.
           rewrite Hst in E. apply (proj2 (opt_eqb_eq _ _)) in Hn.
           rewrite Hn in E. discriminate E.
      * destruct (proj1 IH (ex_intro _ b' (conj Hin Hocc))) as [b0 [Hin0 H0]].
        exists b0. split; [now right | assumption].
    + intros [b0 [[<- | Hin] [Hocc Hn]]].
      * exists b. split; [| assumption]. left.
        destruct (owned_confirmed session b) eqn:E; [| reflexivity].
        exfalso. apply Hn. unfold owned_confirmed in E.
        apply andb_true_iff in E. destruct E as [E _]. now apply opt_eqb_eq.
      * destruct (proj2 IH (ex_intro _ b0 (conj Hin (conj Hocc Hn))))
          as [b' [Hin' Hocc']].
        exists b'. split; [now right | assumption].
Qed.

(** X18: after a turn with a message without goodbye keyword that is
    classified cancel, a slot is reported taken exactly when it was held by
    a confirmed booking of somebody else: the caller's own bookings no
    longer block any slot, and nobody else's booking is released. *)
Theorem cancel_frees_only_own_slots (env : Env) (services_db : dict Service.t)
    (bookings_db bookings_db' : dict Booking.t) (session session' : CS.t)
    (user_input reply : string) (service_id date time : string) :
  says_goodbye user_input = false ->
  classify user_input = i_cancel ->
  get_response_for_state env services_db bookings_db session user_input
  = Ok (bookings_db', session', reply) ->
  (is_slot_available bookings_db' service_id date time = false
   <-> exists b, In b (values bookings_db)
                 /\ occupies service_id date time b
                 /\ Booking.user_name b <> CS.user_name session).
Proof.
  intros Hbye Hc Hr.
  rewrite (@cancel_turn_result _ _ _ _ _ _ _ _ Hbye Hc Hr).
  unfold is_slot_available. rewrite slot_free_spec.
  apply cancel_for_occupied.
Qed.

Lemma cancel_frees_only_own_slots_witness :
  let session := CS.set_user_name (Some "Alice") (CS.new "s1") in
  let bookings_db :=
    [("b1", Booking.mk "b1" (Some "Alice") "svc-h" (Some "2026-11-03")
              (Some "09:00 AM") confirmed)] in
  is_slot_available (cancel_for session bookings_db) "svc-h" "2026-11-03"
    "09:00 AM" = false
  <-> exists b, In b (values bookings_db)
                /\ occupies "svc-h" "2026-11-03" "09:00 AM" b
                /\ Booking.user_name b <> CS.user_name session.
Proof.
  intros session bookings_db.
  apply (@cancel_frees_only_own_slots (Scenario.env "-") (services_db Scenario.w0)
           bookings_db (cancel_for session bookings_db) session
           (CS.set_state st_greeting session) "cancel" msg_cancelled
           "svc-h" "2026-11-03" "09:00 AM"); reflexivity.
Defined.

(** ** Nothing is deleted *)

Lemma dict_has_keys (V : Type) (k : string) (d : dict V) :
  dict_has k d = existsb (String.eqb k) (map fst d).
Proof.
  induction d as [|[k0 v0] r IH]; simpl; [reflexivity | now rewrite IH].
Qed.

Lemma dict_has_set_mono (V : Type) (k k' : string) (v : V) (d : dict V) :
  dict_has k d = true -> dict_has k (dict_set k' v d) = true.
Proof.
  induction d as [|[k0 v0] r IH]; simpl; [discriminate |].
  destruct (String.eqb k' k0) eqn:E; simpl.
  - trivial.
  - destruct (String.eqb k k0); simpl; auto.
Qed.

Lemma only_cancels_keys (d d' : dict Booking.t) :
  only_cancels d d' -> map fst d' = map fst d.
Proof.
  induction 1 as [|e e' r r' [Hk _] _ IH]; simpl; [reflexivity |].
  now rewrite Hk, IH.
Qed.

Lemma turn_keeps_keys (env : Env) (services_db : dict Service.t)
    (bookings_db bookings_db' : dict Booking.t) (session session' : CS.t)
    (user_input : string) (k : string) :
  Turn env services_db bookings_db session user_input bookings_db' session' ->
  dict_has k bookings_db = true -> dict_has k bookings_db' = true.
Proof.
  intros H Hk. inversion H; subst; try assumption.
  - rewrite dict_has_keys,
      (@only_cancels_keys _ _ (cancel_for_only_cancels session bookings_db)),
      <- dict_has_keys. assumption.
  - match goal with
    | Hu : update_loop _ _ _ = _ |- _ =>
        rewrite dict_has_keys,
          (@only_cancels_keys _ _ (@update_loop_only_cancels _ _ _ _ _ Hu)),
          <- dict_has_keys
    end. assumption.
  - now apply dict_has_set_mono.
Qed.

Lemma step_keeps_keys (w : World) (c : Env * Call) :
  (forall k, dict_has k (sessions_db w) = true ->
             dict_has k (sessions_db (step w c)) = true)
  /\ (forall k, dict_has k (bookings_db w) = true ->
                dict_has k (bookings_db (step w c)) = true).
Proof.
  destruct c as [env [|body]]; simpl.
  - split; intros k Hk; [now apply dict_has_set_mono | assumption].
  - destruct (send_message_cases env body w)
      as [[e ->] | [session_id [session [text [_ [_ ->]]]]]];
      [split; trivial |].
    unfold serve_turn.
    destruct (get_response_for_state env (services_db w) (bookings_db w)
                (CS.append_history (user, text) session)
                text) as [[[d' s'] reply]|e] eqn:Hr; simpl.
    + split; intros k Hk; [now apply dict_has_set_mono |].
      eapply turn_keeps_keys; [eapply turn_inversion; eassumption | assumption].
    + split; intros k Hk; [now apply dict_has_set_mono | assumption].
Qed.

(** X19: no sequence of start-session and send-message calls removes
    anything: a session identifier that is known stays known (a session is
    never dropped, not even after goodbye), and a booking identifier that
    is stored stays stored (cancelling and updating only change a
    status). *)
Theorem nothing_is_ever_deleted (w : World) (calls : list (Env * Call))
    (k : string) :
  (dict_has k (sessions_db w) = true ->
   dict_has k (sessions_db (run w calls)) = true)
  /\ (dict_has k (bookings_db w) = true ->
      dict_has k (bookings_db (run w calls)) = true).
Proof.
  revert w. induction calls as [|c calls IH]; intros w; simpl.
  - split; trivial.
  - destruct (step_keeps_keys w c) as [H1 H2].
    destruct (IH (step w c)) as [I1 I2]. split; auto.
Qed.

Lemma nothing_is_ever_deleted_witness :
  dict_has "s1"
    (sessions_db
       (run (run Scenario.w0 Scenario.alice_books)
          [(Scenario.env "-", SendMessage (text_message "s1" "bye"))])) = true.
Proof.
  apply (proj1 (@nothing_is_ever_deleted (run Scenario.w0 Scenario.alice_books)
                  [(Scenario.env "-", SendMessage (text_message "s1" "bye"))] "s1")).
  vm_compute. reflexivity.
Defined.

(** ** The catalogue route *)



(** ** Keywords that an earlier intent takes over *)

Lemma matches_by_keyword (i : Intent) (k k' t : string) :
  In k' (keywords_of i) ->
  contains k' k = true ->
  contains k t = true ->
  matches i t = true.
Proof.
  intros Hin Hk Ht. unfold matches, any_in.
  apply existsb_exists. exists k'. split; [assumption |].
  eapply contains_trans; eassumption.
Qed.

(** X21: two keywords of the table can never have their effect, because
    each contains a keyword of an intent that is tested earlier.  A text
    in which "reschedule" occurs is classified greeting or booking, never
    update ("schedule" is a booking keyword).  A text in which "incorrect"
    occurs is never classified deny nor unknown ("correct" is a confirm
    keyword), and it is classified confirm when no greeting, booking,
    availability, cancel, update or help keyword occurs in it; in the
    confirmation state such a message, if it holds no goodbye keyword,
    stores the booking and completes the session. *)
Theorem shadowed_keywords (text : string) :
  let t := strip (lower text) in
  (contains "reschedule" t = true ->
   classify text = i_greeting \/ classify text = i_booking)
  /\ (contains "incorrect" t = true ->
      classify text <> i_deny
      /\ classify text <> i_unknown
      /\ (matches i_greeting t = false ->
          matches i_booking t = false ->
          matches i_availability t = false ->
          matches i_cancel t = false ->
          matches i_update t = false ->
          matches i_help t = false ->
          classify text = i_confirm
          /\ forall env services_db bookings_db session svc,
              CS.state session = st_confirmation ->
              CS.selected_service session = Some svc ->
              says_goodbye text = false ->
              exists booking reply,
                get_response_for_state env services_db bookings_db session text
                = Ok (dict_set (uuid4 env) booking bookings_db,
                      CS.set_state st_completed session, reply)
                /\ Booking.status booking = confirmed)).
Proof.
  intros t. split.
  - intros H.
    assert (Hb : matches i_booking t = true).
    { apply (@matches_by_keyword i_booking "reschedule" "schedule" t);
        [simpl; auto | reflexivity | assumption]. }
    unfold classify. fold t. rewrite classify_loop_unfold, Hb.
    destruct (matches i_greeting t); auto.
  - intros H.
    assert (Hc : matches i_confirm t = true).
    { apply (@matches_by_keyword i_confirm "incorrect" "correct" t);
        [simpl; auto 10 | reflexivity | assumption]. }
    assert (Hcl : classify text
                  = if matches i_greeting t then i_greeting
                    else if matches i_booking t then i_booking
                    else if matches i_availability t then i_availability
                    else if matches i_cancel t then i_cancel
                    else if matches i_update t then i_update
                    else if matches i_show_bookings t then i_show_bookings
                    else if matches i_help t then i_help
                    else i_confirm).
    { unfold classify. fold t. rewrite classify_loop_unfold, Hc. reflexivity. }
    assert (Hin : forall i, classify text = i -> i <> i_deny /\ i <> i_unknown).
    { intros i <-. rewrite Hcl.
      destruct (matches i_greeting t), (matches i_booking t),
        (matches i_availability t), (matches i_cancel t), (matches i_update t),
        (matches i_show_bookings t), (matches i_help t); split; discriminate. }
    split; [exact (proj1 (Hin _ eq_refl)) |].
    split; [exact (proj2 (Hin _ eq_refl)) |].
    intros H0 H1 H2 H3 H4 H5.
    assert (Hconf : classify text = i_confirm).
    { rewrite Hcl, H0, H1, H2, H3, H4, H5.
      destruct (matches i_show_bookings t) eqn:Hs; [| reflexivity].
      apply show_bookings_shadowed in Hs. congruence. }
    split; [exact Hconf |].
    intros env services_db bookings_db session svc Hst Hsvc Hbye.
    do 2 eexists. split.
    + apply (@confirm_never_checks_slot env services_db bookings_db session svc
               text Hst Hsvc Hbye Hconf).
    + reflexivity.
Qed.

Lemma shadowed_keywords_witness :
  classify "That is incorrect" = i_confirm.
Proof.
  refine (proj1 (proj2 (proj2 (proj2 (shadowed_keywords "That is incorrect") _))
                   _ _ _ _ _ _)); reflexivity.
Defined.
